(** * promcurl: an interactive Prometheus query client

    A shallow embedding of [promcurl.py] and the verification of its
    behavioural specification.

    Modelling conventions.
    - A Python [str] is a Rocq [string]: the sequence of its UTF-8 bytes.
      Byte-wise lexicographic comparison and prefix tests on UTF-8 agree
      with the code point-wise ones Python performs.
    - A decoded JSON document is a value of [json]; a Python [dict] keeps
      its keys in insertion order, so it is an association list.
    - A Python [set] of strings is a [gset string].
    - A computation that may raise is a value of [res]: [Ok v] when it
      returns [v], [Err e] when the exception [e] propagates. *)

From Stdlib Require Import ZArith Ascii String List Lia.
From stdpp Require Import base option list sorting strings gmap.

Open Scope string_scope.
Open Scope list_scope.
Open Scope Z_scope.

(** ** Values and exceptions *)

#[local] Set Warnings "-register-all".

Inductive json : Type :=
| JNull
| JBool (b : bool)
| JInt (n : Z)
| JFloat (repr : string)        (* a float, identified by its [repr] *)
| JStr (s : string)
| JArr (items : list json)
| JObj (fields : list (string * json)).

Inductive exn : Type :=
| KeyError (key : json)
| IndexError
| TypeError
| ValueError
| AttributeError
| JSONDecodeError
| RequestException
| EOFError
| UnicodeEncodeError
| RecursionError.

Inductive res (A : Type) : Type :=
| Ok (a : A)
| Err (e : exn).
Arguments Ok {A} a.
Arguments Err {A} e.

Definition res_bind {A B : Type} (m : res A) (k : A -> res B) : res B :=
  match m with
  | Ok a => k a
  | Err e => Err e
  end.

Notation "'do' x <- m ; k" := (res_bind m (fun x => k))
  (at level 10, x name, m at level 100, k at level 200).

(** Evaluates [f] on every element from left to right and stops at the first
    exception: a list comprehension, or a [for] loop that appends. *)
Fixpoint for_each {A B : Type} (f : A -> res B) (l : list A) : res (list B) :=
  match l with
  | [] => Ok []
  | x :: l' =>
      do y <- f x;
      do ys <- for_each f l';
      Ok (y :: ys)
  end.

(** Keeps the elements on which [f] answers [true], in order, and stops at
    the first exception: a list comprehension with an [if] clause. *)
Fixpoint select {A : Type} (f : A -> res bool) (l : list A) : res (list A) :=
  match l with
  | [] => Ok []
  | x :: l' =>
      do b <- f x;
      do r <- select f l';
      Ok (if b then x :: r else r)
  end.

(** ** Python primitives used by the program *)

Module Py.

(** A UTF-8 continuation byte, [10xxxxxx]. *)
Definition is_continuation (c : ascii) : bool :=
  let n := N_of_ascii c in (128 <=? n)%N && (n <? 192)%N.

Definition starts_with_continuation (s : string) : bool :=
  match s with
  | String c _ => is_continuation c
  | EmptyString => false
  end.

(** The characters of a [str], each one a [str] of length one. *)
Fixpoint chars (s : string) : list string :=
  match s with
  | EmptyString => []
  | String c s' =>
      if starts_with_continuation s' then
        match chars s' with
        | h :: t => String c h :: t
        | [] => [String c EmptyString]
        end
      else String c EmptyString :: chars s'
  end.

(** [l[i]] on a list: negative indices count from the end. *)
Definition list_index {A : Type} (l : list A) (i : Z) : res A :=
  let n := Z.of_nat (length l) in
  let j := if i <? 0 then i + n else i in
  if (0 <=? j) && (j <? n) then
    match nth_error l (Z.to_nat j) with
    | Some x => Ok x
    | None => Err IndexError
    end
  else Err IndexError.

(** [d.get(k)] on the fields of a dict. *)
Fixpoint dict_find (k : string) (fields : list (string * json)) : option json :=
  match fields with
  | [] => None
  | (k', v) :: rest => if String.eqb k k' then Some v else dict_find k rest
  end.

(** [x[k]] for a string [k]. *)
Definition getitem (x : json) (k : string) : res json :=
  match x with
  | JObj fields =>
      match dict_find k fields with
      | Some v => Ok v
      | None => Err (KeyError (JStr k))
      end
  | _ => Err TypeError
  end.

(** [x[i]] for an integer [i]. *)
Definition getitem_int (x : json) (i : Z) : res json :=
  match x with
  | JArr items => list_index items i
  | JStr s => do c <- list_index (chars s) i; Ok (JStr c)
  | JObj _ => Err (KeyError (JInt i))
  | _ => Err TypeError
  end.

(** [x.keys()]. *)
Definition keys (x : json) : res (list string) :=
  match x with
  | JObj fields => Ok (map fst fields)
  | _ => Err AttributeError
  end.

(** [x.get(k, default)]. *)
Definition get (x : json) (k : string) (default : json) : res json :=
  match x with
  | JObj fields =>
      match dict_find k fields with
      | Some v => Ok v
      | None => Ok default
      end
  | _ => Err AttributeError
  end.

(** [x.startswith(text)]. *)
Definition startswith (x : json) (text : string) : res bool :=
  match x with
  | JStr s => Ok (String.prefix text s)
  | _ => Err AttributeError
  end.

(** The elements [for v in x] visits. *)
Definition iter (x : json) : res (list json) :=
  match x with
  | JArr items => Ok items
  | JObj fields => Ok (map (fun kv => JStr (fst kv)) fields)
  | JStr s => Ok (map JStr (chars s))
  | _ => Err TypeError
  end.

(** [l.remove(x)]: drops the first element equal to [x]. *)
Fixpoint list_remove (x : string) (l : list string) : res (list string) :=
  match l with
  | [] => Err ValueError
  | y :: l' =>
      if String.eqb x y then Ok l'
      else do r <- list_remove x l'; Ok (y :: r)
  end.

(** [l[1:-1]]. *)
Definition slice_1_m1 {A : Type} (l : list A) : list A :=
  removelast (tl l).

(** Order of [str]: lexicographic on code points. *)
Definition str_le (s1 s2 : string) : Prop := String.leb s1 s2 = true.
Definition str_lt (s1 s2 : string) : Prop := String.ltb s1 s2 = true.

#[global] Instance str_le_dec : RelDecision str_le.
Proof. intros s1 s2. unfold str_le. apply _. Defined.

(** [set().union] applied to the unpacked list [ls]. *)
Definition set_union (ls : list (list string)) : gset string :=
  ⋃ (map list_to_set ls).

(** [sorted(s)] for a set of strings. *)
Definition sorted (s : gset string) : list string :=
  merge_sort str_le (elements s).

End Py.

(** ** The program *)

(** The arguments of the final [tabulate(table, headers, tablefmt="grid")]
    call, whose text [display_table] prints. *)
Record Table : Type := mkTable {
  headers : list string;
  table : list (list json)
}.

Record Request : Type := mkRequest {
  url : string;
  params : list (string * string)
}.

(** What [requests.get] hands back: the status line and the outcome of
    [response.json()] on the body, which is the decoded document or the
    exception the decoder raises ([JSONDecodeError] on a body that is not
    JSON; the decoder also rejects some JSON, such as an integer literal
    beyond its digit limit, with [ValueError]). *)
Record Response : Type := mkResponse {
  status_code : Z;
  body_json : res json
}.

(** The surroundings of one run: the server behind [requests.get] (an
    [Err] is a transport failure), the line typed at the prompt ([None] at
    end of input), and what becomes of [print(tabulate(table, headers,
    tablefmt="grid"))] for a given table: the text is written, or the call
    raises (as when standard output cannot encode a character). *)
Record World : Type := mkWorld {
  requests_get : Request -> res Response;
  stdin_line : option string;
  print_tabulate : Table -> res unit
}.

Inductive output : Type :=
| Prompt (text : string)
| Printed (t : Table).

Record Outcome : Type := mkOutcome {
  exit_status : Z;
  stdout : list output
}.

Definition prometheus_url : string := "http://localhost:9090/api/v1".

Definition response_json (response : Response) : res json :=
  body_json response.

Definition get_metrics (w : World) : res json :=
  let url := prometheus_url +:+ "/label/__name__/values" in
  do response <- requests_get w (mkRequest url []);
  do data <- response_json response;
  Py.getitem data "data".

Definition query_prometheus (w : World) (query : string) : res json :=
  let url := prometheus_url +:+ "/query" in
  let params := [("query", query)] in
  do response <- requests_get w (mkRequest url params);
  do data <- response_json response;
  do d <- Py.getitem data "data";
  Py.getitem d "result".

(** The body of the loop [for result in results]: the row it appends to
    [table]. *)
Definition build_row (headers : list string) (result : json) : res (list json) :=
  do row <- for_each (fun label =>
              do m <- Py.getitem result "metric";
              Py.get m label (JStr "")) (Py.slice_1_m1 headers);
  do pair <- Py.getitem result "value";
  do value <- Py.getitem_int pair 1;
  let row := row ++ [value] in
  do m <- Py.getitem result "metric";
  do name <- Py.getitem m "__name__";
  Ok (name :: row).

Definition display_table (results : json) : res Table :=
  do rs <- Py.iter results;
  do key_views <- for_each (fun result =>
                    do m <- Py.getitem result "metric"; Py.keys m) rs;
  let headers := "Metric" :: Py.sorted (Py.set_union key_views) in
  do headers <- Py.list_remove "__name__" headers;
  let headers := headers ++ ["Value"] in
  do table <- for_each (build_row headers) rs;
  Ok (mkTable headers table).

(** The completer handed to [readline.set_completer]. *)
Definition completer (metrics : json) (text : string) (state : Z) : res json :=
  do ms <- Py.iter metrics;
  do matches <- select (fun metric => Py.startswith metric text) ms;
  Py.list_index matches state.

(** The module's top level. [display_table] is entered with the result of
    the query; its last statement prints the table it has built. An
    exception that reaches the top level ends the run with exit status 1;
    otherwise the status is 0. *)
Definition main (w : World) : Outcome :=
  match get_metrics w with
  | Err _ => mkOutcome 1 []
  | Ok metrics =>
      (* readline now holds [completer metrics] *)
      let out := [Prompt "Enter a Prometheus query: "] in
      match stdin_line w with
      | None => mkOutcome 1 out
      | Some query =>
          match query_prometheus w query with
          | Err _ => mkOutcome 1 out
          | Ok results =>
              match display_table results with
              | Err _ => mkOutcome 1 out
              | Ok t =>
                  match print_tabulate w t with
                  | Err _ => mkOutcome 1 out
                  | Ok _ => mkOutcome 0 (out ++ [Printed t])
                  end
              end
          end
      end
  end.

(** ** Requests and response bodies *)

Definition metrics_request : Request :=
  mkRequest (prometheus_url +:+ "/label/__name__/values") [].

Definition query_request (query : string) : Request :=
  mkRequest (prometheus_url +:+ "/query") [("query", query)].

(** The field [k] of a decoded document, when it is an object that has one. *)
Definition field (j : json) (k : string) : option json :=
  match j with
  | JObj fields => Py.dict_find k fields
  | _ => None
  end.

(** The first field named [k] of the object [j] holds [v]. *)
Definition has_field (j : json) (k : string) (v : json) : Prop :=
  exists before after,
    j = JObj (before ++ (k, v) :: after) /\ k ∉ map fst before.

(** [j] has no field named [k]: it is no object, or none of its keys is [k]. *)
Definition lacks_field (j : json) (k : string) : Prop :=
  forall fields, j = JObj fields -> k ∉ map fst fields.

(** The [data] field of a response body, when the body is JSON and has one. *)
Definition data_of (r : Response) : option json :=
  match body_json r with
  | Ok j => field j "data"
  | Err _ => None
  end.

(** What the path [data.result] leads to in a response body, when present. *)
Definition result_of (r : Response) : option json :=
  d ← data_of r; field d "result".

(** ** Result records, as the data model describes them *)

(** The labels map of a record: its ['metric'] dict. *)
Definition labels (r : json) : option (list (string * json)) :=
  match r with
  | JObj fields =>
      match Py.dict_find "metric" fields with
      | Some (JObj m) => Some m
      | _ => None
      end
  | _ => None
  end.

(** The value pair of a record: its ['value'] array. *)
Definition value_pair (r : json) : option (list json) :=
  match r with
  | JObj fields =>
      match Py.dict_find "value" fields with
      | Some (JArr p) => Some p
      | _ => None
      end
  | _ => None
  end.

(** The label keys of a record. *)
Definition label_keys (r : json) : list string :=
  match labels r with
  | Some m => map fst m
  | None => []
  end.

(** The value of label [k] in a record, if the record has that label. *)
Definition label (r : json) (k : string) : option json :=
  match labels r with
  | Some m => Py.dict_find k m
  | None => None
  end.

(** A record has a labels map and a value pair of at least two elements. *)
Definition shaped (r : json) : Prop :=
  is_Some (labels r) /\ exists p, value_pair r = Some p /\ (2 <= length p)%nat.

(** The record precondition: the labels map contains ['__name__']. *)
Definition named (r : json) : Prop := is_Some (label r "__name__").

Definition ResultRecord (r : json) : Prop := shaped r /\ named r.

#[global] Instance named_dec (r : json) : Decision (named r).
Proof. unfold named. apply _. Defined.

(** The union of the label keys of all records. *)
Definition label_key_union (rs : list json) : gset string :=
  ⋃ (map (fun r => list_to_set (label_keys r)) rs).

(** The label keys of the result set other than the reserved one. *)
Definition non_reserved_keys (rs : list json) : gset string :=
  label_key_union rs ∖ {[ "__name__" ]}.

(** The cells of the row of a record, for the label columns [ks]. *)
Definition metric_name (r : json) : json := default JNull (label r "__name__").
Definition label_cell (r : json) (k : string) : json := default (JStr "") (label r k).
Definition sample_value (r : json) : json :=
  default JNull (p ← value_pair r; nth_error p 1).
Definition row_of (ks : list string) (r : json) : list json :=
  metric_name r :: map (label_cell r) ks ++ [sample_value r].

(** Two records that are equal except, possibly, for the first element of
    the array under ['value']. *)
Definition field_retimed (f f' : string * json) : Prop :=
  fst f = fst f' /\
  (snd f = snd f' \/
   fst f = "value" /\
   exists t t' rest, snd f = JArr (t :: rest) /\ snd f' = JArr (t' :: rest)).

Inductive retimed : json -> json -> Prop :=
| retimed_same (r : json) : retimed r r
| retimed_fields (fields fields' : list (string * json)) :
    Forall2 field_retimed fields fields' ->
    retimed (JObj fields) (JObj fields').

(** ** Completion over a list of metric names *)

(** A metric-name list, as [get_metrics] decodes it. *)
Definition metric_list (names : list string) : json := JArr (map JStr names).

(** The names that start with [text], in list order. *)
Definition matches (text : string) (names : list string) : list string :=
  List.filter (String.prefix text) names.

(** ASCII case folding. *)
Definition lower_ascii (c : ascii) : ascii :=
  let n := N_of_ascii c in
  if (65 <=? n)%N && (n <=? 90)%N then ascii_of_N (n + 32) else c.

Fixpoint lower (s : string) : string :=
  match s with
  | EmptyString => EmptyString
  | String c s' => String (lower_ascii c) (lower s')
  end.

(** ** Sample inputs *)

(** The metric names of the completion scenario. *)
Definition example_metrics : list string :=
  ["up"; "up_time"; "node_cpu_seconds_total"].

(** A record as the query endpoint sends it: string labels, and a value pair
    of a timestamp and the sample value as a string. *)
Definition record (labels : list (string * string)) (ts : Z) (v : string) : json :=
  JObj [("metric", JObj (map (fun kv => (fst kv, JStr (snd kv))) labels));
        ("value", JArr [JInt ts; JStr v])].

(** Two records with different label sets. *)
Definition example_results : list json :=
  [record [("__name__", "up"); ("job", "prometheus")] 1 "1";
   record [("instance", "a"); ("__name__", "up")] 2 "0"].

(** A healthy server: one metric name, and one record for any query. *)
Definition world_ok : World :=
  mkWorld
    (fun req =>
       if String.eqb (url req) (url metrics_request)
       then Ok (mkResponse 200 (Ok (JObj [("data", JArr [JStr "up"])])))
       else Ok (mkResponse 200
                  (Ok (JObj [("status", JStr "success");
                               ("data",
                     JObj [("resultType", JStr "vector");
                           ("result",
                            JArr [record [("__name__", "up");
                                          ("instance", "localhost:9090");
                                          ("job", "prometheus")] 1700000000 "1"])])]))))
    (Some "up")
    (fun _ => Ok tt).

(** A server that answers the metric-name request with status 500 and a JSON
    body that has a [data] field, and the query with one record. *)
Definition world_500 : World :=
  mkWorld
    (fun req =>
       if String.eqb (url req) (url metrics_request)
       then Ok (mkResponse 500 (Ok (JObj [("data", JArr [JStr "up"])])))
       else Ok (mkResponse 200
                  (Ok (JObj [("data",
                     JObj [("result", JArr [record [("__name__", "up")] 1 "1"])])]))))
    (Some "up")
    (fun _ => Ok tt).

(** A server whose error body has no [data] field. *)
Definition world_500_error : World :=
  mkWorld
    (fun req =>
       Ok (mkResponse 500 (Ok (JObj [("status", JStr "error");
                                       ("error", JStr "internal")]))))
    (Some "up")
    (fun _ => Ok tt).

(** A server that answers the query with a record that lacks ['__name__']. *)
Definition world_unnamed : World :=
  mkWorld
    (fun req =>
       Ok (mkResponse 200
             (Ok (JObj [("data",
                JObj [("result", JArr [record [("job", "prometheus")] 1 "1"])])]))))
    (Some "up")
    (fun _ => Ok tt).

(** The world [w] with every status code replaced by what [f] dictates. *)
Definition with_status (f : Request -> Z) (w : World) : World :=
  mkWorld
    (fun req => do r <- requests_get w req; Ok (mkResponse (f req) (body_json r)))
    (stdin_line w)
    (print_tabulate w).

(** Records of a range query: a ['values'] list where ['value'] is expected. *)
Definition matrix_results : list json :=
  [JObj [("metric", JObj [("__name__", JStr "up")]);
         ("values", JArr [JArr [JInt 1; JStr "1"]; JArr [JInt 2; JStr "1"]])]].

(** A server whose query answer is an error envelope without [data]. *)
Definition world_bad_query : World :=
  mkWorld
    (fun req =>
       if String.eqb (url req) (url metrics_request)
       then Ok (mkResponse 200 (Ok (JObj [("data", JArr [JStr "up"])])))
       else Ok (mkResponse 400 (Ok (JObj [("status", JStr "error");
                                            ("errorType", JStr "bad_data")]))))
    (Some "up{")
    (fun _ => Ok tt).

(** A server whose query answer has a [data] object without [result]. *)
Definition world_no_result : World :=
  mkWorld
    (fun req =>
       Ok (mkResponse 200
             (Ok (JObj [("status", JStr "success");
                        ("data", JObj [("resultType", JStr "vector")])]))))
    (Some "up")
    (fun _ => Ok tt).

(** A server whose bodies the decoder rejects with [ValueError]. *)
Definition world_undecodable : World :=
  mkWorld
    (fun req => Ok (mkResponse 200 (Err ValueError)))
    (Some "up")
    (fun _ => Ok tt).

(** A server whose bodies are JSON lists. *)
Definition world_json_list : World :=
  mkWorld
    (fun req => Ok (mkResponse 200 (Ok (JArr [JStr "up"]))))
    (Some "up")
    (fun _ => Ok tt).

(** A healthy server seen from a terminal that cannot take the table. *)
Definition world_no_print : World :=
  mkWorld (requests_get world_ok) (stdin_line world_ok)
          (fun _ => Err UnicodeEncodeError).

(** A server that finds no series for the query. *)
Definition world_no_series : World :=
  mkWorld
    (fun req =>
       if String.eqb (url req) (url metrics_request)
       then Ok (mkResponse 200 (Ok (JObj [("data", JArr [JStr "up"])])))
       else Ok (mkResponse 200
                  (Ok (JObj [("data", JObj [("result", JArr [])])]))))
    (Some "nothing")
    (fun _ => Ok tt).

(** * Verification *)

(** ** The order on strings *)

Section StringOrder.

Lemma ascii_compare_refl (c : ascii) : Ascii.compare c c = Eq.
Proof. unfold Ascii.compare. apply N.compare_refl. Qed.

Lemma ascii_compare_lt_trans (a b c : ascii) :
  Ascii.compare a b = Lt -> Ascii.compare b c = Lt -> Ascii.compare a c = Lt.
Proof.
  unfold Ascii.compare. rewrite !N.compare_lt_iff. apply N.lt_trans.
Qed.

Lemma string_compare_refl (s : string) : String.compare s s = Eq.
Proof.
  induction s as [|c s IH]; simpl; [reflexivity|].
  rewrite ascii_compare_refl. exact IH.
Qed.

Lemma string_compare_lt_trans (s1 s2 s3 : string) :
  String.compare s1 s2 = Lt -> String.compare s2 s3 = Lt ->
  String.compare s1 s3 = Lt.
Proof.
  revert s2 s3.
  induction s1 as [|a s1 IH]; intros [|b s2] [|c s3]; simpl; try congruence.
  destruct (Ascii.compare a b) eqn:Hab; try discriminate.
  - apply Ascii.compare_eq_iff in Hab. subst b.
    destruct (Ascii.compare a c); try congruence. apply IH.
  - intros _.
    destruct (Ascii.compare b c) eqn:Hbc; try discriminate.
    + apply Ascii.compare_eq_iff in Hbc. subst c. rewrite Hab. reflexivity.
    + intros _. rewrite (ascii_compare_lt_trans a b c Hab Hbc). reflexivity.
Qed.

Lemma str_le_cases (s1 s2 : string) :
  Py.str_le s1 s2 <-> s1 = s2 \/ Py.str_lt s1 s2.
Proof.
  unfold Py.str_le, Py.str_lt, String.leb, String.ltb.
  destruct (String.compare s1 s2) eqn:Hc; simpl; split; intros H; auto.
  - left. apply String.compare_eq_iff. exact Hc.
  - destruct H as [->|H]; [|discriminate H].
    rewrite string_compare_refl in Hc. discriminate Hc.
Qed.

Lemma str_lt_irrefl (s : string) : ~ Py.str_lt s s.
Proof.
  unfold Py.str_lt, String.ltb. rewrite string_compare_refl. discriminate.
Qed.

Lemma str_lt_trans (s1 s2 s3 : string) :
  Py.str_lt s1 s2 -> Py.str_lt s2 s3 -> Py.str_lt s1 s3.
Proof.
  unfold Py.str_lt, String.ltb. intros H1 H2.
  destruct (String.compare s1 s2) eqn:H12; try discriminate.
  destruct (String.compare s2 s3) eqn:H23; try discriminate.
  rewrite (string_compare_lt_trans s1 s2 s3 H12 H23). reflexivity.
Qed.

#[global] Instance str_lt_strict : StrictOrder Py.str_lt.
Proof.
  split.
  - intros s. apply str_lt_irrefl.
  - intros s1 s2 s3. apply str_lt_trans.
Qed.

#[global] Instance str_le_total : Total Py.str_le.
Proof. intros s1 s2. apply String.leb_total. Qed.

#[global] Instance str_le_trans : Transitive Py.str_le.
Proof.
  intros s1 s2 s3. rewrite !str_le_cases.
  intros [->|H1] [->|H2]; auto. right. eapply str_lt_trans; eauto.
Qed.

#[global] Instance str_le_antisym : AntiSymm (=) Py.str_le.
Proof. intros s1 s2. apply String.leb_antisym. Qed.

End StringOrder.

(** ** Facts about the primitives *)

Section Primitives.

Lemma res_bind_ok {A B : Type} (m : res A) (k : A -> res B) (a : A) :
  m = Ok a -> res_bind m k = k a.
Proof. intros ->. reflexivity. Qed.

Lemma for_each_ok {A B : Type} (f : A -> res B) (g : A -> B) (l : list A) :
  Forall (fun x => f x = Ok (g x)) l -> for_each f l = Ok (map g l).
Proof.
  induction 1 as [|x l Hx _ IH]; simpl; [reflexivity|].
  rewrite Hx. simpl. rewrite IH. reflexivity.
Qed.

Lemma for_each_ext {A B : Type} (f g : A -> res B) (l l' : list A) :
  Forall2 (fun x y => f x = g y) l l' -> for_each f l = for_each g l'.
Proof.
  induction 1 as [|x y l l' Hxy _ IH]; simpl; [reflexivity|].
  rewrite Hxy, IH. reflexivity.
Qed.

Lemma for_each_err {A B : Type} (f : A -> res B) (g : A -> B) (e : exn)
    (l1 l2 : list A) (x : A) :
  Forall (fun y => f y = Ok (g y)) l1 -> f x = Err e ->
  for_each f (l1 ++ (x :: l2)) = Err e.
Proof.
  induction 1 as [|y l1 Hy _ IH]; simpl; intros Hx.
  - rewrite Hx. reflexivity.
  - rewrite Hy. simpl. rewrite (IH Hx). reflexivity.
Qed.

Lemma dict_find_Some_keys (k : string) (fields : list (string * json)) :
  is_Some (Py.dict_find k fields) <-> k ∈ map fst fields.
Proof.
  induction fields as [|[k' v] fields IH]; simpl.
  - split; [intros [? ?]; discriminate | intros H; inversion H].
  - destruct (String.eqb_spec k k') as [->|Hne].
    + split; [intros _; left | eauto].
    + rewrite IH. split; [intros H; right; exact H|].
      intros H. inversion H; subst; [congruence | assumption].
Qed.

Lemma list_index_nat {A : Type} (l : list A) (i : nat) (x : A) :
  nth_error l i = Some x -> Py.list_index l (Z.of_nat i) = Ok x.
Proof.
  intros H. unfold Py.list_index.
  assert (Hlt : (i < length l)%nat) by (apply nth_error_Some; congruence).
  destruct (Z.ltb_spec (Z.of_nat i) 0) as [?|_]; [lia|].
  destruct (Z.leb_spec 0 (Z.of_nat i)) as [_|?]; [|lia].
  destruct (Z.ltb_spec (Z.of_nat i) (Z.of_nat (length l))) as [_|?]; [|lia].
  simpl. rewrite Nat2Z.id, H. reflexivity.
Qed.

Lemma list_index_out_of_range {A : Type} (l : list A) (i : Z) :
  Z.of_nat (length l) <= i -> Py.list_index l i = Err IndexError.
Proof.
  intros H. unfold Py.list_index.
  destruct (Z.ltb_spec i 0) as [?|_]; [lia|].
  destruct (Z.ltb_spec i (Z.of_nat (length l))) as [?|_]; [lia|].
  rewrite andb_false_r. reflexivity.
Qed.

Lemma list_index_elem {A : Type} (l : list A) (i : Z) (x : A) :
  Py.list_index l i = Ok x -> x ∈ l.
Proof.
  unfold Py.list_index.
  destruct (_ && _); [|discriminate].
  destruct (nth_error l _) as [y|] eqn:Hy; [|discriminate].
  intros [= <-]. apply list_elem_of_In. eapply nth_error_In. exact Hy.
Qed.

Lemma list_remove_absent (x : string) (l : list string) :
  x ∉ l -> Py.list_remove x l = Err ValueError.
Proof.
  induction l as [|y l IH]; simpl; intros Hx; [reflexivity|].
  destruct (String.eqb_spec x y) as [->|Hne].
  - exfalso. apply Hx. left.
  - rewrite IH; [reflexivity|]. intros H. apply Hx. right. exact H.
Qed.

Lemma list_remove_present (x : string) (l : list string) :
  x ∈ l ->
  exists l1 l2, l = l1 ++ (x :: l2) /\ (x ∉ l1) /\ Py.list_remove x l = Ok (l1 ++ l2).
Proof.
  induction l as [|y l IH]; intros Hx; [inversion Hx|].
  simpl. destruct (String.eqb_spec x y) as [->|Hne].
  - exists [], l. repeat split. intros H; inversion H.
  - assert (Hl : x ∈ l) by (inversion Hx; subst; [congruence|assumption]).
    destruct (IH Hl) as (l1 & l2 & -> & Hn & ->).
    exists (y :: l1), l2. repeat split.
    intros H. inversion H; subst; [congruence | contradiction].
Qed.

Lemma slice_1_m1_middle {A : Type} (a b : A) (l : list A) :
  Py.slice_1_m1 (a :: l ++ [b]) = l.
Proof. unfold Py.slice_1_m1. simpl. apply removelast_last. Qed.

End Primitives.

(** ** Header construction *)

Section Headers.

Lemma sorted_Permutation (U : gset string) : Py.sorted U ≡ₚ elements U.
Proof. apply merge_sort_Permutation. Qed.

Lemma elem_of_sorted (U : gset string) (k : string) : k ∈ Py.sorted U <-> k ∈ U.
Proof. rewrite sorted_Permutation. apply elem_of_elements. Qed.

Lemma NoDup_sorted (U : gset string) : NoDup (Py.sorted U).
Proof. rewrite sorted_Permutation. apply NoDup_elements. Qed.

Lemma length_sorted (U : gset string) : length (Py.sorted U) = size U.
Proof. rewrite sorted_Permutation. reflexivity. Qed.

Lemma sorted_le (U : gset string) : StronglySorted Py.str_le (Py.sorted U).
Proof. apply StronglySorted_merge_sort; apply _. Qed.

Lemma strict_of_NoDup (l : list string) :
  StronglySorted Py.str_le l -> NoDup l -> StronglySorted Py.str_lt l.
Proof.
  induction 1 as [|x l _ IH Hx]; intros Hnd; [constructor|].
  apply NoDup_cons in Hnd as [Hnin Hnd].
  constructor; [exact (IH Hnd)|].
  apply Forall_forall. intros y Hy.
  rewrite Forall_forall in Hx. specialize (Hx y Hy).
  apply str_le_cases in Hx as [->|Hlt]; [contradiction | exact Hlt].
Qed.

Lemma le_of_strict (l : list string) :
  StronglySorted Py.str_lt l -> StronglySorted Py.str_le l.
Proof.
  induction 1 as [|x l _ IH Hx]; constructor; [exact IH|].
  eapply Forall_impl; [exact Hx|]. intros y Hy. apply str_le_cases. auto.
Qed.

Lemma sorted_strict (U : gset string) : StronglySorted Py.str_lt (Py.sorted U).
Proof. apply strict_of_NoDup; [apply sorted_le | apply NoDup_sorted]. Qed.

(** A strictly sorted list is determined by its elements. *)
Lemma strict_sorted_unique (l1 l2 : list string) :
  StronglySorted Py.str_lt l1 -> StronglySorted Py.str_lt l2 ->
  (forall k, k ∈ l1 <-> k ∈ l2) -> l1 = l2.
Proof.
  intros H1 H2 Heq.
  assert (Hnd : forall l, StronglySorted Py.str_lt l -> NoDup l).
  { induction 1 as [|x l _ IH Hx]; constructor; [|exact IH].
    intros Hin. rewrite Forall_forall in Hx.
    exact (str_lt_irrefl x (Hx x Hin)). }
  apply (StronglySorted_unique Py.str_le); try apply le_of_strict; auto.
  apply NoDup_Permutation; auto.
Qed.

(** Removing the reserved key from the sorted union leaves the sorted
    non-reserved keys. *)
Lemma remove_from_sorted (U : gset string) (x : string) :
  x ∈ U -> Py.list_remove x (Py.sorted U) = Ok (Py.sorted (U ∖ {[ x ]})).
Proof.
  intros Hx. apply elem_of_sorted in Hx.
  destruct (list_remove_present x _ Hx) as (l1 & l2 & Hl & Hn & ->).
  f_equal. pose proof (sorted_strict U) as Hs. pose proof (NoDup_sorted U) as Hnd.
  rewrite Hl in Hs, Hnd.
  apply strict_sorted_unique; [| apply sorted_strict |].
  - apply StronglySorted_app in Hs as (H12 & Hs1 & Hs2).
    apply StronglySorted_cons in Hs2 as [Hx2 Hs2].
    apply StronglySorted_app; repeat split; auto.
    intros a b Ha Hb. apply H12; [exact Ha | right; exact Hb].
  - intros k. rewrite elem_of_sorted, elem_of_difference, elem_of_singleton.
    rewrite <- (elem_of_sorted U), Hl.
    apply NoDup_app in Hnd as (_ & Hdisj & Hnd2).
    apply NoDup_cons in Hnd2 as [Hx2 _].
    rewrite !elem_of_app, elem_of_cons. split.
    + intros [Hk|Hk]; (split; [tauto|]); intros ->; contradiction.
    + intros [[Hk|[->|Hk]] Hne]; tauto.
Qed.

Lemma headers_removed (U : gset string) :
  "__name__" ∈ U ->
  Py.list_remove "__name__" ("Metric" :: Py.sorted U)
  = Ok ("Metric" :: Py.sorted (U ∖ {[ "__name__" ]})).
Proof.
  intros H. simpl. rewrite (remove_from_sorted U _ H). reflexivity.
Qed.

Lemma headers_not_removed (U : gset string) :
  "__name__" ∉ U ->
  Py.list_remove "__name__" ("Metric" :: Py.sorted U) = Err ValueError.
Proof.
  intros H. simpl. rewrite list_remove_absent; [reflexivity|].
  rewrite elem_of_sorted. exact H.
Qed.

Lemma getitem_metric (r : json) (m : list (string * json)) :
  labels r = Some m -> Py.getitem r "metric" = Ok (JObj m).
Proof.
  unfold labels, Py.getitem. destruct r; try discriminate.
  destruct (Py.dict_find "metric" fields) as [[]|]; try discriminate.
  intros [= ->]. reflexivity.
Qed.

Lemma key_views_ok (rs : list json) :
  Forall (fun r => is_Some (labels r)) rs ->
  for_each (fun result => do m <- Py.getitem result "metric"; Py.keys m) rs
  = Ok (map label_keys rs).
Proof.
  intros H. apply for_each_ok. eapply Forall_impl; [exact H|].
  intros r [m Hm]. rewrite (getitem_metric r m Hm). unfold label_keys.
  rewrite Hm. reflexivity.
Qed.

Lemma set_union_label_keys (rs : list json) :
  Py.set_union (map label_keys rs) = label_key_union rs.
Proof. unfold Py.set_union, label_key_union. rewrite map_map. reflexivity. Qed.

Lemma elem_of_label_keys (r : json) (k : string) :
  k ∈ label_keys r <-> is_Some (label r k).
Proof.
  unfold label_keys, label. destruct (labels r) as [m|].
  - symmetry. apply dict_find_Some_keys.
  - split; [intros H; inversion H | intros [? ?]; discriminate].
Qed.

Lemma elem_of_label_key_union (rs : list json) (k : string) :
  k ∈ label_key_union rs <-> exists r, r ∈ rs /\ is_Some (label r k).
Proof.
  unfold label_key_union. rewrite elem_of_union_list. split.
  - intros (X & HX & Hk). apply list_elem_of_In, in_map_iff in HX.
    destruct HX as (r & <- & Hr). exists r. split; [apply list_elem_of_In, Hr|].
    apply elem_of_label_keys. apply elem_of_list_to_set in Hk. exact Hk.
  - intros (r & Hr & Hk). exists (list_to_set (label_keys r)). split.
    + apply list_elem_of_In, in_map_iff. exists r. split; [reflexivity|].
      apply list_elem_of_In, Hr.
    + apply elem_of_list_to_set, elem_of_label_keys, Hk.
Qed.

End Headers.

(** ** Row construction *)

Section Rows.

Lemma getitem_value (r : json) (p : list json) :
  value_pair r = Some p -> Py.getitem r "value" = Ok (JArr p).
Proof.
  unfold value_pair, Py.getitem. destruct r; try discriminate.
  destruct (Py.dict_find "value" fields) as [[]|]; try discriminate.
  intros [= ->]. reflexivity.
Qed.

Lemma cells_ok (r : json) (m : list (string * json)) (ks : list string) :
  labels r = Some m ->
  for_each (fun label => do m <- Py.getitem r "metric"; Py.get m label (JStr "")) ks
  = Ok (map (label_cell r) ks).
Proof.
  intros Hm. apply for_each_ok, Forall_forall. intros k _.
  rewrite (getitem_metric r m Hm). simpl. unfold label_cell, label.
  rewrite Hm. destruct (Py.dict_find k m); reflexivity.
Qed.

Lemma sample_ok (r : json) :
  shaped r ->
  (do pair <- Py.getitem r "value"; Py.getitem_int pair 1) = Ok (sample_value r).
Proof.
  intros [_ (p & Hp & Hlen)]. rewrite (getitem_value r p Hp). simpl.
  unfold sample_value. rewrite Hp. simpl.
  destruct p as [|t [|v p]]; simpl in Hlen; try lia.
  exact (list_index_nat (t :: v :: p) 1%nat v eq_refl).
Qed.

(** The row of a record that carries ['__name__']. *)
Lemma build_row_named (ks : list string) (r : json) :
  shaped r -> named r ->
  build_row ("Metric" :: ks ++ ["Value"]) r = Ok (row_of ks r).
Proof.
  intros Hs Hn. pose proof (sample_ok r Hs) as Hv.
  destruct Hs as [[m Hm] (p & Hp & _)].
  unfold build_row. rewrite slice_1_m1_middle, (cells_ok r m ks Hm).
  rewrite (getitem_value r p Hp) in Hv |- *. simpl in Hv |- *. rewrite Hv.
  simpl. rewrite (getitem_metric r m Hm). simpl.
  unfold row_of, metric_name. unfold named, label in Hn |- *.
  rewrite Hm in Hn |- *. destruct Hn as [n Hn]. rewrite Hn. reflexivity.
Qed.

(** A record without ['__name__'] fails at the metric-name lookup. *)
Lemma build_row_unnamed (ks : list string) (r : json) :
  shaped r -> ~ named r ->
  build_row ("Metric" :: ks ++ ["Value"]) r = Err (KeyError (JStr "__name__")).
Proof.
  intros Hs Hn. pose proof (sample_ok r Hs) as Hv.
  destruct Hs as [[m Hm] (p & Hp & _)].
  unfold build_row. rewrite slice_1_m1_middle, (cells_ok r m ks Hm).
  rewrite (getitem_value r p Hp) in Hv |- *. simpl in Hv |- *. rewrite Hv.
  simpl. rewrite (getitem_metric r m Hm). simpl.
  unfold named, label in Hn. rewrite Hm in Hn.
  destruct (Py.dict_find "__name__" m); [|reflexivity].
  exfalso. apply Hn. eauto.
Qed.

(** [display_table] on records that have a labels map and a value pair. *)
Lemma display_table_shaped (rs : list json) :
  Forall shaped rs ->
  display_table (JArr rs) =
    if decide ("__name__" ∈ label_key_union rs) then
      let hs := "Metric" :: Py.sorted (non_reserved_keys rs) ++ ["Value"] in
      do table <- for_each (build_row hs) rs; Ok (mkTable hs table)
    else Err ValueError.
Proof.
  intros Hs. unfold display_table. cbn [Py.iter res_bind].
  rewrite key_views_ok by (eapply Forall_impl; [exact Hs|]; intros r [H _]; exact H).
  cbn [res_bind]. rewrite set_union_label_keys.
  destruct (decide ("__name__" ∈ label_key_union rs)) as [Hin|Hnin].
  - rewrite (headers_removed _ Hin). reflexivity.
  - rewrite (headers_not_removed _ Hnin). reflexivity.
Qed.

Lemma named_in_union (rs : list json) (r : json) :
  r ∈ rs -> named r -> "__name__" ∈ label_key_union rs.
Proof. intros Hr Hn. apply elem_of_label_key_union. eauto. Qed.

(** Rendering succeeds on a non-empty set of well-formed records. *)
Lemma display_table_records (rs : list json) :
  rs <> [] -> Forall ResultRecord rs ->
  let ks := Py.sorted (non_reserved_keys rs) in
  display_table (JArr rs)
  = Ok (mkTable ("Metric" :: ks ++ ["Value"]) (map (row_of ks) rs)).
Proof.
  intros Hne Hrs ks.
  rewrite display_table_shaped
    by (eapply Forall_impl; [exact Hrs|]; intros r [H _]; exact H).
  destruct rs as [|r0 rs0]; [congruence|].
  destruct (decide _) as [_|Hnin].
  - cbv zeta. fold ks. rewrite (for_each_ok _ (row_of ks)); [reflexivity|].
    eapply Forall_impl; [exact Hrs|]. intros r [H1 H2].
    apply build_row_named; assumption.
  - exfalso. apply Hnin. apply (named_in_union _ r0); [left|].
    apply Forall_cons in Hrs as [[_ H] _]. exact H.
Qed.

End Rows.

(** ** Records without a metric name *)

Section Unnamed.

Lemma for_each_some_err {A B : Type} (f : A -> res B) (l : list A) (x : A) :
  x ∈ l -> (exists e, f x = Err e) -> exists e, for_each f l = Err e.
Proof.
  intros Hx Hf. induction l as [|y l IH]; [inversion Hx|]. simpl.
  destruct (f y) as [b|e] eqn:Hy; [|eauto]. cbn [res_bind].
  assert (Hl : x ∈ l).
  { inversion Hx; subst; [|assumption]. destruct Hf as [e He]. congruence. }
  destruct (IH Hl) as [e ->]. eauto.
Qed.

Lemma build_row_unnamed_err (hs : list string) (x : json) :
  ~ named x -> exists e, build_row hs x = Err e.
Proof.
  intros Hn. unfold build_row.
  destruct (for_each _ _) as [row|e]; [|eauto]. cbn [res_bind].
  destruct (Py.getitem x "value") as [p|e]; [|eauto]. cbn [res_bind].
  destruct (Py.getitem_int p 1) as [v|e]; [|eauto]. cbn [res_bind].
  unfold named, label, labels in Hn. unfold Py.getitem at 1.
  destruct x; eauto.
  destruct (Py.dict_find "metric" fields) as [m|]; eauto. cbn [res_bind].
  destruct m; simpl; eauto.
  destruct (Py.dict_find "__name__" fields0); eauto.
  exfalso. apply Hn. eauto.
Qed.

Lemma first_unnamed (rs : list json) :
  (exists x, x ∈ rs /\ ~ named x) ->
  exists l1 x l2, rs = l1 ++ (x :: l2) /\ Forall named l1 /\ ~ named x.
Proof.
  induction rs as [|y rs IH]; intros (x & Hx & Hn); [inversion Hx|].
  destruct (decide (named y)) as [Hy|Hy].
  - assert (Hrs : x ∈ rs) by (inversion Hx; subst; [contradiction|assumption]).
    destruct IH as (l1 & x' & l2 & -> & Hl1 & Hx'); [eauto|].
    exists (y :: l1), x', l2. repeat split; auto.
  - exists [], y, rs. repeat split; auto.
Qed.

(** In any result set with a record that lacks ['__name__'], rendering
    raises. *)
Lemma display_table_unnamed_err (rs : list json) :
  (exists x, x ∈ rs /\ ~ named x) -> exists e, display_table (JArr rs) = Err e.
Proof.
  intros (x & Hx & Hn). unfold display_table. cbn [Py.iter res_bind].
  destruct (for_each _ rs) as [key_views|e]; [|eauto]. cbn [res_bind].
  destruct (Py.list_remove _ _) as [hs|e]; [|eauto]. cbn [res_bind].
  destruct (for_each_some_err (build_row (hs ++ ["Value"])) rs x Hx
              (build_row_unnamed_err _ x Hn)) as [e ->].
  eauto.
Qed.

Lemma display_table_none_named (rs : list json) :
  Forall shaped rs -> (forall x, x ∈ rs -> ~ named x) ->
  display_table (JArr rs) = Err ValueError.
Proof.
  intros Hs Hn. rewrite (display_table_shaped rs Hs).
  destruct (decide _) as [Hin|_]; [|reflexivity].
  apply elem_of_label_key_union in Hin as (x & Hx & Hx').
  exfalso. exact (Hn x Hx Hx').
Qed.

Lemma display_table_some_unnamed (rs : list json) :
  Forall shaped rs -> (exists x, x ∈ rs /\ named x) ->
  (exists x, x ∈ rs /\ ~ named x) ->
  display_table (JArr rs) = Err (KeyError (JStr "__name__")).
Proof.
  intros Hs (y & Hy & Hyn) Hun. rewrite (display_table_shaped rs Hs).
  destruct (decide _) as [_|Hnin]; [|exfalso; eauto using named_in_union].
  cbv zeta. set (ks := Py.sorted (non_reserved_keys rs)).
  destruct (first_unnamed rs Hun) as (l1 & x & l2 & Hrs & Hl1 & Hx).
  rewrite Hrs in Hs |- *. apply Forall_app in Hs as [Hs1 Hs2].
  apply Forall_cons in Hs2 as [Hsx _].
  rewrite (for_each_err _ (row_of ks) (KeyError (JStr "__name__"))); [reflexivity| |].
  - apply Forall_forall. intros r Hr. rewrite Forall_forall in Hs1, Hl1.
    apply build_row_named; auto.
  - apply build_row_unnamed; assumption.
Qed.

End Unnamed.

(** ** Timestamps *)

Section Timestamps.

Lemma dict_find_retimed (k : string) (fields fields' : list (string * json)) :
  Forall2 field_retimed fields fields' ->
  Py.dict_find k fields = Py.dict_find k fields' \/
  k = "value" /\ exists t t' rest,
    Py.dict_find k fields = Some (JArr (t :: rest)) /\
    Py.dict_find k fields' = Some (JArr (t' :: rest)).
Proof.
  induction 1 as [|[k1 v1] [k2 v2] fields fields' [Hk Hv] _ IH]; [left; reflexivity|].
  simpl in Hk, Hv. subst k2. simpl.
  destruct (String.eqb_spec k k1) as [->|Hne]; [|exact IH].
  destruct Hv as [->|(Hval & t & t' & rest & -> & ->)]; [left; reflexivity|].
  right. split; [exact Hval|]. eauto.
Qed.

Lemma getitem_metric_retimed (r r' : json) :
  retimed r r' -> Py.getitem r "metric" = Py.getitem r' "metric".
Proof.
  destruct 1 as [r|fields fields' H]; [reflexivity|]. simpl.
  destruct (dict_find_retimed "metric" _ _ H) as [->|[Hk _]];
    [reflexivity | discriminate Hk].
Qed.

Lemma list_index_1_tail {A : Type} (t t' : A) (rest : list A) :
  Py.list_index (t :: rest) 1 = Py.list_index (t' :: rest) 1.
Proof. unfold Py.list_index. simpl. reflexivity. Qed.

Lemma getitem_value_retimed (r r' : json) :
  retimed r r' ->
  Py.getitem r "value" = Py.getitem r' "value" \/
  exists t t' rest, Py.getitem r "value" = Ok (JArr (t :: rest)) /\
                    Py.getitem r' "value" = Ok (JArr (t' :: rest)).
Proof.
  destruct 1 as [r|fields fields' H]; [left; reflexivity|]. simpl.
  destruct (dict_find_retimed "value" _ _ H)
    as [->|(_ & t & t' & rest & -> & ->)]; [left; reflexivity|].
  right. eauto.
Qed.

Lemma build_row_retimed (hs : list string) (r r' : json) :
  retimed r r' -> build_row hs r = build_row hs r'.
Proof.
  intros H. unfold build_row.
  rewrite (getitem_metric_retimed r r' H).
  destruct (getitem_value_retimed r r' H) as [->|(t & t' & rest & -> & ->)];
    [reflexivity|].
  destruct (for_each _ _); [|reflexivity]. cbn [res_bind Py.getitem_int].
  rewrite (list_index_1_tail t t' rest). reflexivity.
Qed.

End Timestamps.

(** ** Completion *)

Section Completion.

Lemma select_startswith (text : string) (names : list string) :
  select (fun metric => Py.startswith metric text) (map JStr names)
  = Ok (map JStr (matches text names)).
Proof.
  induction names as [|m names IH]; simpl; [reflexivity|].
  rewrite IH. simpl. destruct (String.prefix text m); reflexivity.
Qed.

Lemma completer_metric_list (names : list string) (text : string) (state : Z) :
  completer (metric_list names) text state
  = Py.list_index (map JStr (matches text names)) state.
Proof.
  unfold completer, metric_list. cbn [Py.iter res_bind].
  rewrite select_startswith. reflexivity.
Qed.

Lemma prefix_empty (s : string) : String.prefix "" s = true.
Proof. destruct s; reflexivity. Qed.

Lemma matches_empty_prefix (names : list string) : matches "" names = names.
Proof.
  induction names as [|m names IH]; simpl; [reflexivity|].
  rewrite prefix_empty. f_equal. exact IH.
Qed.

(** Whatever the completer offers is a listed name that starts with the
    text as typed. *)
Lemma completer_offers_prefixed (names : list string) (text m : string) (state : Z) :
  completer (metric_list names) text state = Ok (JStr m) ->
  m ∈ names /\ String.prefix text m = true.
Proof.
  rewrite completer_metric_list. intros H. apply list_index_elem in H.
  apply list_elem_of_In, in_map_iff in H. destruct H as (m' & [= ->] & H).
  apply filter_In in H as [H1 H2]. split; [apply list_elem_of_In, H1 | exact H2].
Qed.

End Completion.

(** ** The API client and the driver *)

Section Client.

Lemma getitem_field (j : json) (k : string) (v : json) :
  field j k = Some v -> Py.getitem j k = Ok v.
Proof.
  destruct j; try discriminate. simpl. intros ->. reflexivity.
Qed.

Lemma getitem_no_field (j : json) (k : string) :
  field j k = None -> exists e, Py.getitem j k = Err e.
Proof.
  destruct j; simpl; eauto. intros ->. eauto.
Qed.

Lemma get_metrics_ok (w : World) (r : Response) (d : json) :
  requests_get w metrics_request = Ok r -> data_of r = Some d ->
  get_metrics w = Ok d.
Proof.
  unfold get_metrics, data_of, response_json. fold metrics_request.
  intros ->. cbn [res_bind]. destruct (body_json r) as [j|]; [|discriminate].
  simpl. apply getitem_field.
Qed.

Lemma get_metrics_err (w : World) (r : Response) :
  requests_get w metrics_request = Ok r -> data_of r = None ->
  exists e, get_metrics w = Err e.
Proof.
  unfold get_metrics, data_of, response_json. fold metrics_request.
  intros ->. cbn [res_bind]. destruct (body_json r) as [j|]; [|eauto].
  simpl. apply getitem_no_field.
Qed.

Lemma query_prometheus_ok (w : World) (query : string) (r : Response) (v : json) :
  requests_get w (query_request query) = Ok r -> result_of r = Some v ->
  query_prometheus w query = Ok v.
Proof.
  unfold query_prometheus, result_of, data_of, response_json.
  fold (query_request query).
  intros ->. cbn [res_bind]. destruct (body_json r) as [j|]; [|discriminate].
  simpl. destruct (field j "data") as [d|] eqn:Hd; [|discriminate].
  rewrite (getitem_field _ _ _ Hd). simpl. apply getitem_field.
Qed.

Lemma query_prometheus_err (w : World) (query : string) (r : Response) :
  requests_get w (query_request query) = Ok r -> result_of r = None ->
  exists e, query_prometheus w query = Err e.
Proof.
  unfold query_prometheus, result_of, data_of, response_json.
  fold (query_request query).
  intros ->. cbn [res_bind]. destruct (body_json r) as [j|]; [|eauto].
  simpl. destruct (field j "data") as [d|] eqn:Hd.
  - rewrite (getitem_field _ _ _ Hd). simpl. apply getitem_no_field.
  - intros _. destruct (getitem_no_field _ _ Hd) as [e ->]. eauto.
Qed.

Lemma getitem_has_field (j : json) (k : string) (v : json) :
  has_field j k v -> Py.getitem j k = Ok v.
Proof.
  intros (before & after & -> & Hk). simpl.
  induction before as [|[k' v'] before IH]; simpl.
  - rewrite String.eqb_refl. reflexivity.
  - destruct (String.eqb_spec k k') as [->|_].
    + exfalso. apply Hk. left.
    + apply IH. intros H. apply Hk. right. exact H.
Qed.

Lemma getitem_missing_key (fields : list (string * json)) (k : string) :
  k ∉ map fst fields -> Py.getitem (JObj fields) k = Err (KeyError (JStr k)).
Proof.
  intros Hk. simpl. destruct (Py.dict_find k fields) as [v|] eqn:Hf; [|reflexivity].
  exfalso. apply Hk, dict_find_Some_keys. rewrite Hf. eauto.
Qed.

Lemma getitem_not_object (j : json) (k : string) :
  (forall fields, j <> JObj fields) -> Py.getitem j k = Err TypeError.
Proof.
  intros Hj. destruct j; try reflexivity. exfalso. exact (Hj _ eq_refl).
Qed.

Lemma getitem_lacks_field (j : json) (k : string) :
  lacks_field j k -> exists e, Py.getitem j k = Err e.
Proof.
  intros Hl. destruct j; simpl; eauto.
  pose proof (getitem_missing_key fields k (Hl fields eq_refl)) as H.
  simpl in H. eauto.
Qed.

End Client.

Section Driver.

Lemma main_aborts_at_fetch (w : World) (e : exn) :
  get_metrics w = Err e -> main w = mkOutcome 1 [].
Proof. unfold main. intros ->. reflexivity. Qed.

End Driver.

(** ** Worked examples *)

Example chars_ascii : Py.chars "up" = ["u"; "p"].
Proof. reflexivity. Qed.

Example chars_two_byte : Py.chars "né" = ["n"; "é"].
Proof. reflexivity. Qed.

Example sorted_ex :
  Py.sorted (Py.set_union [["job"; "__name__"]; ["instance"; "__name__"]])
  = ["__name__"; "instance"; "job"].
Proof. vm_compute. reflexivity. Qed.

Example e2e :
  display_table (JArr [record [("__name__", "up"); ("instance", "localhost:9090");
                               ("job", "prometheus")] 1700000000 "1"])
  = Ok (mkTable ["Metric"; "instance"; "job"; "Value"]
                [[JStr "up"; JStr "localhost:9090"; JStr "prometheus"; JStr "1"]]).
Proof. vm_compute. reflexivity. Qed.

Example e2e_run :
  main world_ok
  = mkOutcome 0
      [Prompt "Enter a Prometheus query: ";
       Printed (mkTable ["Metric"; "instance"; "job"; "Value"]
                  [[JStr "up"; JStr "localhost:9090"; JStr "prometheus"; JStr "1"]])].
Proof. vm_compute. reflexivity. Qed.

Example completer_all_names :
  map (completer (metric_list example_metrics) "") [0; 1; 2; 3]
  = [Ok (JStr "up"); Ok (JStr "up_time"); Ok (JStr "node_cpu_seconds_total");
     Err IndexError].
Proof. reflexivity. Qed.

Example run_500_with_data :
  main world_500
  = mkOutcome 0
      [Prompt "Enter a Prometheus query: ";
       Printed (mkTable ["Metric"; "Value"] [[JStr "up"; JStr "1"]])].
Proof. vm_compute. reflexivity. Qed.

(** ** The claims *)

(** C1 (the code departs from the claim). On the empty result set
    [display_table] does not reach [tabulate]: the header list is just
    ['Metric'], so [headers.remove('__name__')] raises [ValueError]. No table
    with two header columns and zero rows is produced. *)
Theorem display_table_empty_raises :
  display_table (JArr []) = Err ValueError.
Proof. reflexivity. Qed.

(** C2 (the code departs from the claim). For every metric-name list and
    prefix, a request at an index at or past the number of matching names
    makes the completer raise [IndexError]; it returns no "no more
    completions" value. *)
Theorem completer_past_matches_raises (names : list string) (text : string) (state : Z) :
  Z.of_nat (length (matches text names)) <= state ->
  completer (metric_list names) text state = Err IndexError.
Proof.
  intros H. rewrite completer_metric_list.
  apply list_index_out_of_range. rewrite length_map. exact H.
Qed.

Lemma completer_past_matches_raises_witness :
  Z.of_nat (length (matches "up" example_metrics)) <= 2 /\
  completer (metric_list example_metrics) "up" 2 = Err IndexError.
Proof.
  split; [vm_compute; discriminate|].
  apply completer_past_matches_raises. vm_compute. discriminate.
Defined.

(** C3. For a non-empty result set whose records all carry ['__name__'],
    the table is rendered and its headers are ['Metric'], then the label
    keys of all records other than ['__name__'] in strictly increasing code
    point order, then ['Value']; there are 2 plus the number of distinct
    non-reserved label keys of them. *)
Theorem headers_of_records (rs : list json) :
  rs <> [] -> Forall ResultRecord rs ->
  exists (t : Table) (ks : list string),
    display_table (JArr rs) = Ok t /\
    headers t = "Metric" :: ks ++ ["Value"] /\
    StronglySorted Py.str_lt ks /\
    (forall k, k ∈ ks <->
       k <> "__name__" /\ exists r, r ∈ rs /\ is_Some (label r k)) /\
    length (headers t) = (2 + size (non_reserved_keys rs))%nat.
Proof.
  intros Hne Hrs.
  exists (mkTable ("Metric" :: Py.sorted (non_reserved_keys rs) ++ ["Value"])
                  (map (row_of (Py.sorted (non_reserved_keys rs))) rs)).
  exists (Py.sorted (non_reserved_keys rs)).
  split; [apply display_table_records; assumption|].
  split; [reflexivity|].
  split; [apply sorted_strict|].
  split.
  - intros k. rewrite elem_of_sorted. unfold non_reserved_keys.
    rewrite elem_of_difference, elem_of_singleton, elem_of_label_key_union.
    tauto.
  - cbn [headers length]. rewrite length_app, length_sorted. simpl. lia.
Qed.

Lemma headers_of_records_witness :
  example_results <> [] /\ Forall ResultRecord example_results /\
  exists (t : Table) (ks : list string),
    display_table (JArr example_results) = Ok t /\
    headers t = "Metric" :: ks ++ ["Value"] /\
    StronglySorted Py.str_lt ks /\
    (forall k, k ∈ ks <->
       k <> "__name__" /\ exists r, r ∈ example_results /\ is_Some (label r k)) /\
    length (headers t) = (2 + size (non_reserved_keys example_results))%nat.
Proof.
  assert (H1 : example_results <> []) by discriminate.
  assert (H2 : Forall ResultRecord example_results)
    by (repeat constructor; vm_compute; eauto).
  split; [exact H1|]. split; [exact H2|].
  exact (headers_of_records example_results H1 H2).
Defined.

(** On a non-empty set of well-formed records the table handed to
    [tabulate] has one row per record, in the order received: the record's
    ['__name__'] value, its value for each label column (the empty string
    where it has none), and the second element of its value pair. *)
Lemma rows_of_records (rs : list json) :
  rs <> [] -> Forall ResultRecord rs ->
  exists (t : Table) (ks : list string),
    display_table (JArr rs) = Ok t /\
    headers t = "Metric" :: ks ++ ["Value"] /\
    table t = map (fun r => metric_name r :: map (label_cell r) ks ++ [sample_value r]) rs.
Proof.
  intros Hne Hrs. eexists _, _. split; [apply display_table_records; assumption|].
  split; reflexivity.
Qed.


(** C5. Within the match count the completer returns the [i]-th name, counted
    from 0, among the listed names that start with the prefix, in list order;
    under the empty prefix every name matches. On
    [["up"; "up_time"; "node_cpu_seconds_total"]] with prefix ["up"] it
    returns ["up"] at index 0 and ["up_time"] at index 1. *)
Theorem completer_returns_ith (names : list string) (text m : string) (i : nat) :
  nth_error (matches text names) i = Some m ->
  completer (metric_list names) text (Z.of_nat i) = Ok (JStr m) /\
  matches "" names = names /\
  completer (metric_list example_metrics) "up" 0 = Ok (JStr "up") /\
  completer (metric_list example_metrics) "up" 1 = Ok (JStr "up_time").
Proof.
  intros H. split; [|split; [apply matches_empty_prefix | split; reflexivity]].
  rewrite completer_metric_list. apply list_index_nat.
  rewrite nth_error_map, H. reflexivity.
Qed.

Lemma completer_returns_ith_witness :
  nth_error (matches "" example_metrics) 2 = Some "node_cpu_seconds_total" /\
  completer (metric_list example_metrics) "" 2 = Ok (JStr "node_cpu_seconds_total").
Proof.
  split; [reflexivity|].
  exact (proj1 (completer_returns_ith example_metrics "" "node_cpu_seconds_total" 2 eq_refl)).
Defined.

(** C6, as the code has it. When the metric-name endpoint answers with
    status 500 and a body that is not JSON or has no [data] field, the run
    ends with a nonzero exit status and prints no table. *)
Theorem metrics_fetch_500_aborts (w : World) (r : Response) :
  requests_get w metrics_request = Ok r ->
  status_code r = 500 ->
  data_of r = None ->
  exit_status (main w) <> 0 /\ forall t, Printed t ∉ stdout (main w).
Proof.
  intros Hr _ Hd. destruct (get_metrics_err w r Hr Hd) as [e He].
  rewrite (main_aborts_at_fetch w e He). simpl. split; [discriminate|].
  intros t H. inversion H.
Qed.

Lemma metrics_fetch_500_aborts_witness :
  requests_get world_500_error metrics_request
  = Ok (mkResponse 500 (Ok (JObj [("status", JStr "error");
                                    ("error", JStr "internal")]))) /\
  exit_status (main world_500_error) <> 0 /\
  forall t, Printed t ∉ stdout (main world_500_error).
Proof.
  split; [reflexivity|].
  exact (metrics_fetch_500_aborts world_500_error _ eq_refl eq_refl eq_refl).
Defined.

(** C6 as stated fails: the status code is never inspected, so a 500 answer
    whose body is JSON with a [data] field lets the run go on to a printed
    table and exit status 0. *)
Lemma http_500_not_fatal :
  ~ (forall (w : World) (r : Response),
       requests_get w metrics_request = Ok r ->
       status_code r = 500 ->
       exit_status (main w) <> 0 /\ forall t, Printed t ∉ stdout (main w)).
Proof.
  intros H.
  destruct (H world_500 _ eq_refl eq_refl) as [Hexit _].
  apply Hexit. vm_compute. reflexivity.
Qed.

(** C7. [get_metrics] returns the [data] field of the response body and
    raises when the body is not decoded as JSON or has no [data] field;
    [query_prometheus] returns what [data.result] leads to and raises in the
    same way, also when [data] has no [result] field. *)
Theorem api_client_decoding (w : World) (query : string) (r1 r2 : Response) :
  requests_get w metrics_request = Ok r1 ->
  requests_get w (query_request query) = Ok r2 ->
  (forall j d, body_json r1 = Ok j -> has_field j "data" d ->
     get_metrics w = Ok d) /\
  (forall e, body_json r1 = Err e -> get_metrics w = Err e) /\
  (forall j, body_json r1 = Ok j -> lacks_field j "data" ->
     exists e, get_metrics w = Err e) /\
  (forall j d v, body_json r2 = Ok j -> has_field j "data" d ->
     has_field d "result" v -> query_prometheus w query = Ok v) /\
  (forall e, body_json r2 = Err e -> query_prometheus w query = Err e) /\
  (forall j, body_json r2 = Ok j -> lacks_field j "data" ->
     exists e, query_prometheus w query = Err e) /\
  (forall j d, body_json r2 = Ok j -> has_field j "data" d ->
     lacks_field d "result" -> exists e, query_prometheus w query = Err e).
Proof.
  intros H1 H2.
  unfold get_metrics, query_prometheus, response_json.
  fold metrics_request. fold (query_request query). rewrite H1, H2.
  cbn [res_bind]. repeat split.
  - intros j d -> Hd. exact (getitem_has_field j "data" d Hd).
  - intros e ->. reflexivity.
  - intros j -> Hl. exact (getitem_lacks_field j "data" Hl).
  - intros j d v -> Hd Hv. cbn [res_bind].
    rewrite (getitem_has_field j "data" d Hd). exact (getitem_has_field d "result" v Hv).
  - intros e ->. reflexivity.
  - intros j -> Hl. cbn [res_bind].
    destruct (getitem_lacks_field j "data" Hl) as [e ->]. eauto.
  - intros j d -> Hd Hl. cbn [res_bind].
    rewrite (getitem_has_field j "data" d Hd). exact (getitem_lacks_field d "result" Hl).
Qed.

Lemma api_client_decoding_witness :
  (get_metrics world_ok = Ok (JArr [JStr "up"]) /\
   query_prometheus world_ok "up"
   = Ok (JArr [record [("__name__", "up"); ("instance", "localhost:9090");
                       ("job", "prometheus")] 1700000000 "1"])) /\
  ((exists e, get_metrics world_500_error = Err e) /\
   (exists e, query_prometheus world_500_error "up" = Err e)) /\
  (exists e, query_prometheus world_no_result "up" = Err e).
Proof.
  split; [|split].
  - destruct (api_client_decoding world_ok "up" _ _ eq_refl eq_refl)
      as (Hm & _ & _ & Hq & _).
    split.
    + apply (Hm _ _ eq_refl). exists [], []. split; [reflexivity|].
      intros H. inversion H.
    + apply (Hq _ (JObj [("resultType", JStr "vector");
                         ("result",
                          JArr [record [("__name__", "up");
                                        ("instance", "localhost:9090");
                                        ("job", "prometheus")] 1700000000 "1"])])
               _ eq_refl).
      * exists [("status", JStr "success")], []. split; [reflexivity|].
        intros H. apply list_elem_of_singleton in H. discriminate H.
      * exists [("resultType", JStr "vector")], []. split; [reflexivity|].
        intros H. apply list_elem_of_singleton in H. discriminate H.
  - destruct (api_client_decoding world_500_error "up" _ _ eq_refl eq_refl)
      as (_ & _ & Hm & _ & _ & Hq & _).
    assert (Hl : lacks_field (JObj [("status", JStr "error");
                                    ("error", JStr "internal")]) "data").
    { intros fields [= <-] H. simpl in H.
      apply elem_of_cons in H as [H|H]; [discriminate H|].
      apply list_elem_of_singleton in H. discriminate H. }
    split; [exact (Hm _ eq_refl Hl) | exact (Hq _ eq_refl Hl)].
  - destruct (api_client_decoding world_no_result "up" _ _ eq_refl eq_refl)
      as (_ & _ & _ & _ & _ & _ & Hq).
    apply (Hq _ (JObj [("resultType", JStr "vector")]) eq_refl).
    + exists [("status", JStr "success")], []. split; [reflexivity|].
      intros H. apply list_elem_of_singleton in H. discriminate H.
    + intros fields [= <-] H. apply list_elem_of_singleton in H. discriminate H.
Defined.

(** C8. Two result sets that are equal except for the first elements of
    their value pairs are displayed alike: the same table, or the same
    exception. *)
Theorem display_table_ignores_timestamps (rs rs' : list json) :
  Forall2 retimed rs rs' ->
  display_table (JArr rs) = display_table (JArr rs').
Proof.
  intros H. unfold display_table. cbn [Py.iter res_bind].
  rewrite (for_each_ext _ (fun result => do m <- Py.getitem result "metric"; Py.keys m)
             rs rs').
  2:{ eapply Forall2_impl; [exact H|]. intros r r' Hr. cbn beta.
      rewrite (getitem_metric_retimed r r' Hr). reflexivity. }
  destruct (for_each _ rs') as [key_views|e]; [|reflexivity]. cbn [res_bind].
  destruct (Py.list_remove _ _) as [hs|e]; [|reflexivity]. cbn [res_bind].
  rewrite (for_each_ext (build_row (hs ++ ["Value"])) (build_row (hs ++ ["Value"]))
             rs rs').
  2:{ eapply Forall2_impl; [exact H|]. intros r r' Hr.
      apply build_row_retimed. exact Hr. }
  reflexivity.
Qed.

Lemma display_table_ignores_timestamps_witness :
  Forall2 retimed [record [("__name__", "up"); ("job", "prometheus")] 1 "1"]
                  [record [("__name__", "up"); ("job", "prometheus")] 1700000000 "1"] /\
  display_table (JArr [record [("__name__", "up"); ("job", "prometheus")] 1 "1"])
  = display_table
      (JArr [record [("__name__", "up"); ("job", "prometheus")] 1700000000 "1"]).
Proof.
  assert (H : Forall2 retimed
                [record [("__name__", "up"); ("job", "prometheus")] 1 "1"]
                [record [("__name__", "up"); ("job", "prometheus")] 1700000000 "1"]).
  { constructor; [|constructor]. apply retimed_fields.
    constructor; [split; [reflexivity | left; reflexivity]|].
    constructor; [|constructor].
    split; [reflexivity|]. right. split; [reflexivity|].
    exists (JInt 1), (JInt 1700000000), [JStr "1"]. split; reflexivity. }
  split; [exact H|].
  exact (display_table_ignores_timestamps _ _ H).
Defined.

(** C9. A non-empty result set with a record whose labels map lacks
    ['__name__'] is decoded without complaint by [query_prometheus], and
    [display_table] raises on it instead of rendering: [ValueError] from the
    header removal when no record has the key, [KeyError] from the per-row
    metric-name lookup when some records have it (the records having a
    labels map and a value pair). *)
Theorem unnamed_record_fails_in_renderer
    (w : World) (query : string) (r : Response) (rs : list json) :
  requests_get w (query_request query) = Ok r ->
  result_of r = Some (JArr rs) ->
  (exists x, x ∈ rs /\ ~ named x) ->
  query_prometheus w query = Ok (JArr rs) /\
  (exists e, display_table (JArr rs) = Err e) /\
  (Forall shaped rs ->
   ((forall x, x ∈ rs -> ~ named x) -> display_table (JArr rs) = Err ValueError) /\
   ((exists x, x ∈ rs /\ named x) ->
    display_table (JArr rs) = Err (KeyError (JStr "__name__")))).
Proof.
  intros Hr Hres Hun. split; [exact (query_prometheus_ok w query r _ Hr Hres)|].
  split; [exact (display_table_unnamed_err rs Hun)|].
  intros Hs. split.
  - apply display_table_none_named. exact Hs.
  - intros Hsome. apply display_table_some_unnamed; assumption.
Qed.

Lemma unnamed_record_fails_in_renderer_witness :
  (exists x, x ∈ [record [("job", "prometheus")] 1 "1"] /\ ~ named x) /\
  query_prometheus world_unnamed "up" = Ok (JArr [record [("job", "prometheus")] 1 "1"]) /\
  display_table (JArr [record [("job", "prometheus")] 1 "1"]) = Err ValueError.
Proof.
  assert (Hn : ~ named (record [("job", "prometheus")] 1 "1"))
    by (intros [v Hv]; discriminate Hv).
  assert (H : exists x, x ∈ [record [("job", "prometheus")] 1 "1"] /\ ~ named x)
    by (eexists; split; [left | exact Hn]).
  assert (Hs : Forall shaped [record [("job", "prometheus")] 1 "1"])
    by (repeat constructor; vm_compute; eauto).
  split; [exact H|].
  destruct (unnamed_record_fails_in_renderer world_unnamed "up" _ _ eq_refl eq_refl H)
    as (Hq & _ & Herr).
  split; [exact Hq|]. apply (proj1 (Herr Hs)).
  intros x Hx. apply list_elem_of_singleton in Hx. subst x. exact Hn.
Defined.

(** C10. Prefix matching is case-sensitive: a name whose first characters,
    over the length of the prefix, agree with the prefix up to letter case
    but not exactly is at no index offered as a completion. *)
Theorem completion_case_sensitive (names : list string) (text m : string) (state : Z) :
  substring 0 (String.length text) m <> text ->
  lower (substring 0 (String.length text) m) = lower text ->
  completer (metric_list names) text state <> Ok (JStr m).
Proof.
  intros Hdiff _ H. apply completer_offers_prefixed in H as [_ H].
  apply Hdiff, String.prefix_correct, H.
Qed.

Lemma completion_case_sensitive_witness :
  substring 0 (String.length "UP") "up_time" <> "UP" /\
  lower (substring 0 (String.length "UP") "up_time") = lower "UP" /\
  completer (metric_list example_metrics) "UP" 0 <> Ok (JStr "up_time").
Proof.
  assert (H1 : substring 0 (String.length "UP") "up_time" <> "UP") by discriminate.
  assert (H2 : lower (substring 0 (String.length "UP") "up_time") = lower "UP")
    by reflexivity.
  split; [exact H1|]. split; [exact H2|].
  exact (completion_case_sensitive example_metrics "UP" "up_time" 0 H1 H2).
Defined.

(** ** Further properties of the renderer *)

Section Rendering.

Lemma for_each_Forall2 {A B : Type} (f : A -> res B) (l : list A) (ys : list B) :
  for_each f l = Ok ys -> Forall2 (fun x y => f x = Ok y) l ys.
Proof.
  revert ys. induction l as [|x l IH]; simpl; intros ys.
  - intros [= <-]. constructor.
  - destruct (f x) as [y|e] eqn:Hx; [|discriminate]. cbn [res_bind].
    destruct (for_each f l) as [ys'|e]; [|discriminate]. cbn [res_bind].
    intros [= <-]. constructor; [exact Hx | apply IH; reflexivity].
Qed.

Lemma for_each_length {A B : Type} (f : A -> res B) (l : list A) (ys : list B) :
  for_each f l = Ok ys -> length ys = length l.
Proof.
  intros H. apply for_each_Forall2, Forall2_length in H. congruence.
Qed.

Lemma key_views_labels (rs : list json) (kvs : list (list string)) :
  for_each (fun result => do m <- Py.getitem result "metric"; Py.keys m) rs = Ok kvs ->
  Forall (fun r => is_Some (labels r)) rs.
Proof.
  intros H. apply for_each_Forall2 in H.
  induction H as [|r kv rs kvs Hr _ IH]; constructor; [|exact IH].
  unfold labels. destruct r; try discriminate Hr. simpl in Hr.
  destruct (Py.dict_find "metric" fields) as [m|]; [|discriminate Hr].
  destruct m; try discriminate Hr. eauto.
Qed.

(** [display_table] on records that have a labels map. *)
Lemma display_table_labelled (rs : list json) :
  Forall (fun r => is_Some (labels r)) rs ->
  display_table (JArr rs) =
    if decide ("__name__" ∈ label_key_union rs) then
      let hs := "Metric" :: Py.sorted (non_reserved_keys rs) ++ ["Value"] in
      do table <- for_each (build_row hs) rs; Ok (mkTable hs table)
    else Err ValueError.
Proof.
  intros Hs. unfold display_table. cbn [Py.iter res_bind].
  rewrite (key_views_ok rs Hs). cbn [res_bind]. rewrite set_union_label_keys.
  destruct (decide ("__name__" ∈ label_key_union rs)) as [Hin|Hnin].
  - rewrite (headers_removed _ Hin). reflexivity.
  - rewrite (headers_not_removed _ Hnin). reflexivity.
Qed.

(** What a successful call has gone through. *)
Lemma display_table_ok_inv (rs : list json) (t : Table) :
  display_table (JArr rs) = Ok t ->
  Forall (fun r => is_Some (labels r)) rs /\
  "__name__" ∈ label_key_union rs /\
  headers t = "Metric" :: Py.sorted (non_reserved_keys rs) ++ ["Value"] /\
  for_each (build_row (headers t)) rs = Ok (table t).
Proof.
  intros H.
  assert (Hl : Forall (fun r => is_Some (labels r)) rs).
  { unfold display_table in H. cbn [Py.iter res_bind] in H.
    destruct (for_each _ rs) as [kvs|e] eqn:Hk; [|discriminate H].
    exact (key_views_labels rs kvs Hk). }
  rewrite (display_table_labelled rs Hl) in H.
  destruct (decide _) as [Hin|_]; [|discriminate H]. cbv zeta in H.
  destruct (for_each _ rs) as [tbl|e] eqn:Ht; [|discriminate H].
  cbn [res_bind] in H. injection H as <-. auto.
Qed.

Lemma build_row_length (ks : list string) (r : json) (row : list json) :
  build_row ("Metric" :: ks ++ ["Value"]) r = Ok row ->
  length row = length ("Metric" :: ks ++ ["Value"]).
Proof.
  unfold build_row. rewrite slice_1_m1_middle.
  destruct (for_each _ ks) as [cells|e] eqn:Hc; [|discriminate]. cbn [res_bind].
  destruct (Py.getitem r "value") as [p|e]; [|discriminate]. cbn [res_bind].
  destruct (Py.getitem_int p 1) as [v|e]; [|discriminate]. cbn [res_bind].
  destruct (Py.getitem r "metric") as [m|e]; [|discriminate]. cbn [res_bind].
  destruct (Py.getitem m "__name__") as [n|e]; [|discriminate]. cbn [res_bind].
  intros [= <-]. apply for_each_length in Hc.
  cbn [length]. rewrite !length_app, Hc. reflexivity.
Qed.

Lemma rows_width (ks : list string) (rs : list json) (tbl : list (list json)) :
  for_each (build_row ("Metric" :: ks ++ ["Value"])) rs = Ok tbl ->
  Forall (fun row => length row = length ("Metric" :: ks ++ ["Value"])) tbl.
Proof.
  intros H. apply for_each_Forall2 in H.
  induction H as [|r row rs' tbl' Hr _ IH]; constructor; [|exact IH].
  exact (build_row_length ks r row Hr).
Qed.

Lemma chars_nonempty (c : ascii) (s : string) : Py.chars (String c s) <> [].
Proof.
  simpl. destruct (Py.starts_with_continuation s); [|discriminate].
  destruct (Py.chars s); discriminate.
Qed.

Lemma label_key_union_Permutation (rs rs' : list json) :
  rs ≡ₚ rs' -> label_key_union rs = label_key_union rs'.
Proof.
  intros Hp. apply set_eq. intros k. rewrite !elem_of_label_key_union.
  split; intros (r & Hr & Hk); exists r; split; auto.
  - rewrite <- Hp. exact Hr.
  - rewrite Hp. exact Hr.
Qed.

End Rendering.

(** X1. Whenever a table is produced it is rectangular: it has one row per
    record, and every row has as many cells as there are headers. *)
Theorem table_is_rectangular (rs : list json) (t : Table) :
  display_table (JArr rs) = Ok t ->
  length (table t) = length rs /\
  Forall (fun row => length row = length (headers t)) (table t).
Proof.
  intros H. apply display_table_ok_inv in H as (_ & _ & Hh & Ht).
  split; [exact (for_each_length _ _ _ Ht)|].
  rewrite Hh in Ht |- *. exact (rows_width _ rs _ Ht).
Qed.

Lemma table_is_rectangular_witness :
  length (map (row_of ["instance"; "job"]) example_results) = length example_results /\
  Forall (fun row => length row = 4%nat) (map (row_of ["instance"; "job"]) example_results).
Proof.
  exact (table_is_rectangular example_results
           (mkTable ["Metric"; "instance"; "job"; "Value"]
                    (map (row_of ["instance"; "job"]) example_results))
           eq_refl).
Defined.

(** X2. Whenever a table is produced, its first header is ['Metric'], its
    last is ['Value'], and the label columns in between are in strictly
    increasing order and do not include ['__name__']. *)
Theorem headers_frame (rs : list json) (t : Table) :
  display_table (JArr rs) = Ok t ->
  exists ks, headers t = "Metric" :: ks ++ ["Value"] /\
             StronglySorted Py.str_lt ks /\ "__name__" ∉ ks.
Proof.
  intros H. apply display_table_ok_inv in H as (_ & _ & Hh & _).
  exists (Py.sorted (non_reserved_keys rs)). split; [exact Hh|].
  split; [apply sorted_strict|].
  rewrite elem_of_sorted. unfold non_reserved_keys.
  rewrite elem_of_difference, elem_of_singleton. tauto.
Qed.

Lemma headers_frame_witness :
  exists ks, ["Metric"; "instance"; "job"; "Value"] = "Metric" :: ks ++ ["Value"] /\
             StronglySorted Py.str_lt ks /\ "__name__" ∉ ks.
Proof.
  exact (headers_frame example_results
           (mkTable ["Metric"; "instance"; "job"; "Value"]
                    (map (row_of ["instance"; "job"]) example_results))
           eq_refl).
Defined.

(** X3. On records that have a labels map and a value pair, a table is
    produced exactly when there is at least one record and every record
    carries ['__name__']. *)
Theorem display_table_succeeds_iff (rs : list json) :
  Forall shaped rs ->
  ((exists t, display_table (JArr rs) = Ok t) <-> rs <> [] /\ Forall named rs).
Proof.
  intros Hs. split.
  - intros [t Ht]. split.
    + intros ->. discriminate Ht.
    + destruct (decide (Forall named rs)) as [Hn|Hn]; [exact Hn|].
      apply not_Forall_Exists in Hn; [|apply _].
      apply Exists_exists in Hn as (x & Hx & Hnx).
      destruct (display_table_unnamed_err rs) as [e He]; [eauto|]. congruence.
  - intros [Hne Hn]. eexists. apply display_table_records; [exact Hne|].
    apply Forall_forall. intros r Hr. rewrite Forall_forall in Hs, Hn.
    split; auto.
Qed.

Lemma display_table_succeeds_iff_witness :
  (exists t, display_table (JArr example_results) = Ok t) <->
  example_results <> [] /\ Forall named example_results.
Proof.
  apply display_table_succeeds_iff.
  repeat constructor; vm_compute; eauto.
Defined.

(** X4. Reordering the records reorders the rows and changes nothing else:
    the headers stay the same and the rows are a permutation of the former
    ones. *)
Theorem display_table_permutation (rs rs' : list json) :
  rs ≡ₚ rs' -> rs <> [] -> Forall ResultRecord rs ->
  exists t t',
    display_table (JArr rs) = Ok t /\ display_table (JArr rs') = Ok t' /\
    headers t' = headers t /\ table t' ≡ₚ table t.
Proof.
  intros Hp Hne Hrs.
  assert (Hne' : rs' <> []).
  { intros ->. apply Permutation_nil_r in Hp. contradiction. }
  assert (Hrs' : Forall ResultRecord rs') by (rewrite <- Hp; exact Hrs).
  eexists _, _.
  split; [apply display_table_records; assumption|].
  split; [apply display_table_records; assumption|].
  unfold non_reserved_keys. rewrite <- (label_key_union_Permutation rs rs' Hp).
  split; [reflexivity|]. cbn [table].
  apply Permutation_map. symmetry. exact Hp.
Qed.

Lemma display_table_permutation_witness :
  example_results ≡ₚ rev example_results /\
  exists t t',
    display_table (JArr example_results) = Ok t /\
    display_table (JArr (rev example_results)) = Ok t' /\
    headers t' = headers t /\ table t' ≡ₚ table t.
Proof.
  assert (Hp : example_results ≡ₚ rev example_results) by apply Permutation_rev.
  split; [exact Hp|].
  apply (display_table_permutation _ _ Hp); [discriminate|].
  repeat constructor; vm_compute; eauto.
Defined.

(** X5. A result that is not a JSON array is never rendered: [display_table]
    raises [TypeError], or [ValueError] for an empty string or object. *)
Theorem display_table_needs_array (results : json) :
  (forall rs, results <> JArr rs) ->
  display_table results = Err TypeError \/ display_table results = Err ValueError.
Proof.
  intros Hna. destruct results as [| | | |s|rs|fields]; try (left; reflexivity).
  - destruct s as [|c s]; [right; reflexivity|]. left.
    unfold display_table. cbn [Py.iter res_bind].
    pose proof (chars_nonempty c s) as Hc.
    destruct (Py.chars (String c s)) as [|h tl]; [contradiction|]. reflexivity.
  - exfalso. exact (Hna rs eq_refl).
  - destruct fields as [|[k v] fields]; [right; reflexivity|]. left. reflexivity.
Qed.

Lemma display_table_needs_array_witness :
  display_table (JObj [("resultType", JStr "vector")]) = Err TypeError \/
  display_table (JObj [("resultType", JStr "vector")]) = Err ValueError.
Proof.
  apply display_table_needs_array. intros rs. discriminate.
Defined.

(** X6. When the first record has no ['value'] key, as in the answer to a
    range query, [display_table] raises [KeyError('value')], provided the
    header phase passes (labels maps everywhere, ['__name__'] somewhere). *)
Theorem display_table_missing_value (r : json) (rest : list json) :
  Forall (fun x => is_Some (labels x)) (r :: rest) ->
  (exists x, x ∈ r :: rest /\ named x) ->
  field r "value" = None ->
  display_table (JArr (r :: rest)) = Err (KeyError (JStr "value")).
Proof.
  intros Hl (x & Hx & Hn) Hv. rewrite (display_table_labelled _ Hl).
  destruct (decide _) as [_|Hnin]; [|exfalso; eauto using named_in_union].
  cbv zeta. cbn [for_each]. unfold build_row at 1. rewrite slice_1_m1_middle.
  apply Forall_cons in Hl as [[m Hm] _]. rewrite (cells_ok r m _ Hm).
  cbn [res_bind]. destruct r; try discriminate Hm. simpl in Hv.
  unfold Py.getitem at 1. rewrite Hv. reflexivity.
Qed.

Lemma display_table_missing_value_witness :
  display_table (JArr matrix_results) = Err (KeyError (JStr "value")).
Proof.
  apply display_table_missing_value.
  - repeat constructor. vm_compute. eauto.
  - eexists. split; [left|]. vm_compute. eauto.
  - reflexivity.
Defined.

(** X7. The header names of a produced table are pairwise distinct exactly
    when no record has a label called ['Metric'] or ['Value']: such a label
    gets a column whose name repeats that of a fixed column. *)
Theorem headers_distinct_iff (rs : list json) (t : Table) :
  display_table (JArr rs) = Ok t ->
  (NoDup (headers t) <->
   forall r, r ∈ rs -> label r "Metric" = None /\ label r "Value" = None).
Proof.
  intros H. apply display_table_ok_inv in H as (_ & _ & -> & _).
  set (ks := Py.sorted (non_reserved_keys rs)).
  assert (Hks : forall k, k ∈ ks <->
            k <> "__name__" /\ exists r, r ∈ rs /\ is_Some (label r k)).
  { intros k. unfold ks. rewrite elem_of_sorted. unfold non_reserved_keys.
    rewrite elem_of_difference, elem_of_singleton, elem_of_label_key_union. tauto. }
  assert (Hnd : NoDup ks) by apply NoDup_sorted.
  rewrite NoDup_cons, NoDup_app, elem_of_app, !list_elem_of_singleton. split.
  - intros (Hm & _ & Hv & _) r Hr. split.
    + destruct (label r "Metric") eqn:Hl; [|reflexivity]. exfalso.
      apply Hm. left. apply Hks. split; [discriminate|]. exists r. rewrite Hl. eauto.
    + destruct (label r "Value") eqn:Hl; [|reflexivity]. exfalso.
      apply (Hv "Value"); [|left]. apply Hks. split; [discriminate|].
      exists r. rewrite Hl. eauto.
  - intros Hno. split; [|split; [exact Hnd|split]].
    + intros [Hin|Heq]; [|discriminate Heq].
      apply Hks in Hin as (_ & r & Hr & [v Hv]).
      destruct (Hno r Hr) as [Hm _]. congruence.
    + intros k Hin Hk. apply list_elem_of_singleton in Hk. subst k.
      apply Hks in Hin as (_ & r & Hr & [v Hv]).
      destruct (Hno r Hr) as [_ Hm]. congruence.
    + apply NoDup_singleton.
Qed.

Lemma headers_distinct_iff_witness :
  ~ NoDup (headers (mkTable ["Metric"; "Metric"; "Value"]
                            [[JStr "up"; JStr "x"; JStr "1"]])).
Proof.
  intros Hnd.
  destruct (proj1 (headers_distinct_iff
                     [record [("__name__", "up"); ("Metric", "x")] 1 "1"]
                     (mkTable ["Metric"; "Metric"; "Value"]
                              [[JStr "up"; JStr "x"; JStr "1"]])
                     eq_refl) Hnd
              (record [("__name__", "up"); ("Metric", "x")] 1 "1")) as [Hm _];
    [left | discriminate Hm].
Defined.

(** ** Further properties of the completer *)

Section Completing.

Lemma select_non_string (text : string) (ms : list json) :
  (exists x, x ∈ ms /\ forall s, x <> JStr s) ->
  select (fun metric => Py.startswith metric text) ms = Err AttributeError.
Proof.
  induction ms as [|y ms IH]; intros (x & Hx & Hns); [inversion Hx|].
  cbn [select].
  destruct y; try reflexivity. cbn [Py.startswith res_bind].
  rewrite IH; [reflexivity|].
  exists x. split; [|exact Hns].
  inversion Hx; subst; [|assumption]. exfalso. exact (Hns s eq_refl).
Qed.

Lemma list_index_from_end {A : Type} (l : list A) (k : nat) (x : A) :
  nth_error (rev l) k = Some x -> Py.list_index l (- Z.of_nat k - 1) = Ok x.
Proof.
  intros H.
  assert (Hk : (k < length l)%nat).
  { rewrite <- length_rev. apply nth_error_Some. congruence. }
  rewrite nth_error_rev in H.
  destruct (Nat.ltb_spec k (length l)) as [_|?]; [|lia].
  unfold Py.list_index.
  destruct (Z.ltb_spec (- Z.of_nat k - 1) 0) as [_|?]; [|lia].
  destruct (Z.leb_spec 0 (- Z.of_nat k - 1 + Z.of_nat (length l))) as [_|?]; [|lia].
  destruct (Z.ltb_spec (- Z.of_nat k - 1 + Z.of_nat (length l))
              (Z.of_nat (length l))) as [_|?]; [|lia].
  cbn [andb].
  replace (Z.to_nat (- Z.of_nat k - 1 + Z.of_nat (length l)))
    with (length l - S k)%nat by lia.
  rewrite H. reflexivity.
Qed.

Lemma list_index_below_range {A : Type} (l : list A) (i : Z) :
  i < - Z.of_nat (length l) -> Py.list_index l i = Err IndexError.
Proof.
  intros H. unfold Py.list_index.
  destruct (Z.ltb_spec i 0) as [_|?]; [|lia].
  destruct (Z.leb_spec 0 (i + Z.of_nat (length l))) as [?|_]; [lia|].
  reflexivity.
Qed.

End Completing.

(** X8. Over the requests readline makes (indices 0, 1, 2, ...), the names
    offered for a text are exactly the listed names that start with it:
    none is invented and none is skipped. *)
Theorem completer_offers_exactly (names : list string) (text m : string) :
  (exists i : nat, completer (metric_list names) text (Z.of_nat i) = Ok (JStr m)) <->
  m ∈ names /\ String.prefix text m = true.
Proof.
  split.
  - intros [i H]. exact (completer_offers_prefixed names text m _ H).
  - intros [Hm Hp].
    assert (Hin : In m (matches text names)).
    { apply filter_In. split; [apply list_elem_of_In, Hm | exact Hp]. }
    apply In_nth_error in Hin as [i Hi]. exists i.
    rewrite completer_metric_list. apply list_index_nat.
    rewrite nth_error_map, Hi. reflexivity.
Qed.

(** X9. A negative index counts from the end of the matches, as Python list
    indexing does: [-1] gives the last match, and an index below minus the
    number of matches raises [IndexError]. *)
Theorem completer_negative_index (names : list string) (text m : string) (k : nat) :
  nth_error (rev (matches text names)) k = Some m ->
  completer (metric_list names) text (- Z.of_nat k - 1) = Ok (JStr m) /\
  forall state, state < - Z.of_nat (length (matches text names)) ->
                completer (metric_list names) text state = Err IndexError.
Proof.
  intros H. split.
  - rewrite completer_metric_list. apply list_index_from_end.
    rewrite <- map_rev, nth_error_map, H. reflexivity.
  - intros state Hs. rewrite completer_metric_list.
    apply list_index_below_range. rewrite length_map. exact Hs.
Qed.

Lemma completer_negative_index_witness :
  completer (metric_list example_metrics) "up" (-1) = Ok (JStr "up_time") /\
  completer (metric_list example_metrics) "up" (-3) = Err IndexError.
Proof.
  destruct (completer_negative_index example_metrics "up" "up_time" 0 eq_refl)
    as [H1 H2].
  split; [exact H1 | apply H2; reflexivity].
Defined.

(** X10. One entry of the metric list that is not a string spoils every
    completion: whatever the text and the index, the completer raises
    [AttributeError], because the whole list is filtered before indexing. *)
Theorem completer_non_string_entry (ms : list json) (text : string) (state : Z) :
  (exists x, x ∈ ms /\ forall s, x <> JStr s) ->
  completer (JArr ms) text state = Err AttributeError.
Proof.
  intros H. unfold completer. cbn [Py.iter res_bind].
  rewrite (select_non_string text ms H). reflexivity.
Qed.

Lemma completer_non_string_entry_witness :
  completer (JArr [JStr "up"; JNull; JStr "up_time"]) "up" 0 = Err AttributeError.
Proof.
  apply completer_non_string_entry. exists JNull.
  split; [right; left | intros s; discriminate].
Defined.

(** ** Further properties of the API client and the driver *)

Section Running.

Lemma with_status_get_metrics (f : Request -> Z) (w : World) :
  get_metrics (with_status f w) = get_metrics w.
Proof.
  unfold get_metrics, with_status. cbn [requests_get].
  destruct (requests_get w _) as [r|e]; reflexivity.
Qed.

Lemma with_status_query_prometheus (f : Request -> Z) (w : World) (query : string) :
  query_prometheus (with_status f w) query = query_prometheus w query.
Proof.
  unfold query_prometheus, with_status. cbn [requests_get].
  destruct (requests_get w _) as [r|e]; reflexivity.
Qed.

Lemma main_after_prompt (w : World) (metrics : json) (query : string) :
  get_metrics w = Ok metrics -> stdin_line w = Some query ->
  main w =
    match (do results <- query_prometheus w query;
           do t <- display_table results;
           do _ <- print_tabulate w t;
           Ok t) with
    | Ok t => mkOutcome 0 [Prompt "Enter a Prometheus query: "; Printed t]
    | Err _ => mkOutcome 1 [Prompt "Enter a Prometheus query: "]
    end.
Proof.
  intros Hm Hq. unfold main. rewrite Hm, Hq.
  destruct (query_prometheus w query) as [results|e]; [|reflexivity].
  cbn [res_bind]. destruct (display_table results) as [t|e]; [|reflexivity].
  cbn [res_bind]. destruct (print_tabulate w t); reflexivity.
Qed.

End Running.

(** X11. With the transport succeeding, [get_metrics] raises whatever
    exception [response.json()] raises on the body, [KeyError('data')] when
    the body is an object none of whose keys is ['data'], and [TypeError]
    when the body is JSON of another kind. *)
Theorem get_metrics_exceptions (w : World) (r : Response) :
  requests_get w metrics_request = Ok r ->
  (forall e, body_json r = Err e -> get_metrics w = Err e) /\
  (forall fields, body_json r = Ok (JObj fields) -> "data" ∉ map fst fields ->
     get_metrics w = Err (KeyError (JStr "data"))) /\
  (forall j, body_json r = Ok j -> (forall fields, j <> JObj fields) ->
     get_metrics w = Err TypeError).
Proof.
  intros Hr. unfold get_metrics, response_json. fold metrics_request.
  rewrite Hr. cbn [res_bind]. repeat split.
  - intros e ->. reflexivity.
  - intros fields -> Hd. exact (getitem_missing_key fields "data" Hd).
  - intros j -> Hj. exact (getitem_not_object j "data" Hj).
Qed.

Lemma get_metrics_exceptions_witness :
  get_metrics world_500_error = Err (KeyError (JStr "data")) /\
  get_metrics world_undecodable = Err ValueError /\
  get_metrics world_json_list = Err TypeError.
Proof.
  split; [|split].
  - destruct (get_metrics_exceptions world_500_error _ eq_refl) as (_ & H & _).
    apply (H _ eq_refl). simpl. intros Hin.
    apply elem_of_cons in Hin as [Hin|Hin]; [discriminate Hin|].
    apply list_elem_of_singleton in Hin. discriminate Hin.
  - destruct (get_metrics_exceptions world_undecodable _ eq_refl) as (H & _).
    exact (H _ eq_refl).
  - destruct (get_metrics_exceptions world_json_list _ eq_refl) as (_ & _ & H).
    apply (H _ eq_refl). intros fields. discriminate.
Defined.

(** X12. With the transport succeeding, [query_prometheus] raises whatever
    exception [response.json()] raises on the body, [KeyError('data')] or
    [KeyError('result')] when the body, respectively its [data] object, has
    no such key, and [TypeError] when the body or its [data] is not an
    object. *)
Theorem query_prometheus_exceptions (w : World) (query : string) (r : Response) :
  requests_get w (query_request query) = Ok r ->
  (forall e, body_json r = Err e -> query_prometheus w query = Err e) /\
  (forall fields, body_json r = Ok (JObj fields) -> "data" ∉ map fst fields ->
     query_prometheus w query = Err (KeyError (JStr "data"))) /\
  (forall j dfields, body_json r = Ok j -> has_field j "data" (JObj dfields) ->
     "result" ∉ map fst dfields ->
     query_prometheus w query = Err (KeyError (JStr "result"))) /\
  (forall j d, body_json r = Ok j -> has_field j "data" d ->
     (forall dfields, d <> JObj dfields) ->
     query_prometheus w query = Err TypeError) /\
  (forall j, body_json r = Ok j -> (forall fields, j <> JObj fields) ->
     query_prometheus w query = Err TypeError).
Proof.
  intros Hr. unfold query_prometheus, response_json. fold (query_request query).
  rewrite Hr. cbn [res_bind]. repeat split.
  - intros e ->. reflexivity.
  - intros fields -> Hd. cbn [res_bind].
    rewrite (getitem_missing_key fields "data" Hd). reflexivity.
  - intros j dfields -> Hd Hres. cbn [res_bind].
    rewrite (getitem_has_field j "data" _ Hd).
    exact (getitem_missing_key dfields "result" Hres).
  - intros j d -> Hd Hno. cbn [res_bind].
    rewrite (getitem_has_field j "data" d Hd).
    exact (getitem_not_object d "result" Hno).
  - intros j -> Hj. cbn [res_bind].
    rewrite (getitem_not_object j "data" Hj). reflexivity.
Qed.

Lemma query_prometheus_exceptions_witness :
  query_prometheus world_bad_query "up{" = Err (KeyError (JStr "data")) /\
  query_prometheus world_no_result "up" = Err (KeyError (JStr "result")) /\
  query_prometheus world_undecodable "up" = Err ValueError.
Proof.
  split; [|split].
  - destruct (query_prometheus_exceptions world_bad_query "up{" _ eq_refl)
      as (_ & H & _).
    apply (H _ eq_refl). simpl. intros Hin.
    apply elem_of_cons in Hin as [Hin|Hin]; [discriminate Hin|].
    apply list_elem_of_singleton in Hin. discriminate Hin.
  - destruct (query_prometheus_exceptions world_no_result "up" _ eq_refl)
      as (_ & _ & H & _).
    apply (H _ [("resultType", JStr "vector")] eq_refl).
    + exists [("status", JStr "success")], []. split; [reflexivity|].
      intros Hin. apply list_elem_of_singleton in Hin. discriminate Hin.
    + intros Hin. apply list_elem_of_singleton in Hin. discriminate Hin.
  - destruct (query_prometheus_exceptions world_undecodable "up" _ eq_refl)
      as (H & _).
    exact (H _ eq_refl).
Defined.


(** X14. Nothing is written to standard output, not even the prompt, exactly
    when the metric-name fetch fails. *)
Theorem silent_iff_fetch_failed (w : World) :
  stdout (main w) = [] <-> exists e, get_metrics w = Err e.
Proof.
  unfold main. destruct (get_metrics w) as [m|e].
  - split; [|intros [e He]; discriminate He].
    destruct (stdin_line w) as [query|]; [|discriminate].
    destruct (query_prometheus w query) as [results|]; [|discriminate].
    destruct (display_table results) as [t|]; [|discriminate].
    destruct (print_tabulate w t); discriminate.
  - split; [eauto | reflexivity].
Qed.

(** X15. The HTTP status codes play no part: replacing the status code of
    every response by any other leaves the outcome of the run unchanged. *)
Theorem main_ignores_status (f : Request -> Z) (w : World) :
  main (with_status f w) = main w.
Proof.
  unfold main. rewrite with_status_get_metrics.
  destruct (get_metrics w); [|reflexivity].
  cbn [stdin_line with_status]. destruct (stdin_line w) as [query|]; [|reflexivity].
  rewrite with_status_query_prometheus. reflexivity.
Qed.

(** X16. A run in which both endpoints answer with the expected JSON shape,
    a line is typed, the query yields a non-empty set of well-formed records
    and printing their table does not raise ends with exit status 0 after
    printing the prompt and that table; if printing raises, the run ends
    with exit status 1 after the prompt alone. *)
Theorem run_renders (w : World) (r1 r2 : Response) (d : json) (query : string)
    (rs : list json) :
  requests_get w metrics_request = Ok r1 -> data_of r1 = Some d ->
  stdin_line w = Some query ->
  requests_get w (query_request query) = Ok r2 -> result_of r2 = Some (JArr rs) ->
  rs <> [] -> Forall ResultRecord rs ->
  let t := mkTable ("Metric" :: Py.sorted (non_reserved_keys rs) ++ ["Value"])
                   (map (row_of (Py.sorted (non_reserved_keys rs))) rs) in
  (print_tabulate w t = Ok tt ->
   main w = mkOutcome 0 [Prompt "Enter a Prometheus query: "; Printed t]) /\
  (forall e, print_tabulate w t = Err e ->
   main w = mkOutcome 1 [Prompt "Enter a Prometheus query: "]).
Proof.
  intros H1 Hd Hq H2 Hres Hne Hrs t.
  rewrite (main_after_prompt w d query (get_metrics_ok w r1 d H1 Hd) Hq).
  rewrite (query_prometheus_ok w query r2 _ H2 Hres). cbn [res_bind].
  rewrite (display_table_records rs Hne Hrs). cbn [res_bind]. fold t.
  split.
  - intros ->. reflexivity.
  - intros e ->. reflexivity.
Qed.

Lemma run_renders_witness :
  main world_ok =
    mkOutcome 0
      [Prompt "Enter a Prometheus query: ";
       Printed (mkTable ["Metric"; "instance"; "job"; "Value"]
                  [[JStr "up"; JStr "localhost:9090"; JStr "prometheus"; JStr "1"]])] /\
  main world_no_print = mkOutcome 1 [Prompt "Enter a Prometheus query: "].
Proof.
  assert (Hrs : Forall ResultRecord
                  [record [("__name__", "up"); ("instance", "localhost:9090");
                           ("job", "prometheus")] 1700000000 "1"])
    by (repeat constructor; vm_compute; eauto).
  split.
  - rewrite (proj1 (run_renders world_ok _ _ (JArr [JStr "up"]) "up" _
                      eq_refl eq_refl eq_refl eq_refl eq_refl
                      ltac:(discriminate) Hrs) eq_refl).
    vm_compute. reflexivity.
  - exact (proj2 (run_renders world_no_print _ _ (JArr [JStr "up"]) "up" _
                    eq_refl eq_refl eq_refl eq_refl eq_refl
                    ltac:(discriminate) Hrs) UnicodeEncodeError eq_refl).
Defined.

(** X17. When the query matches no series (an empty [data.result]), the run
    ends with exit status 1 right after the prompt: the exception of the
    renderer is not caught. *)
Theorem run_on_no_series (w : World) (r1 r2 : Response) (d : json) (query : string) :
  requests_get w metrics_request = Ok r1 -> data_of r1 = Some d ->
  stdin_line w = Some query ->
  requests_get w (query_request query) = Ok r2 -> result_of r2 = Some (JArr []) ->
  main w = mkOutcome 1 [Prompt "Enter a Prometheus query: "].
Proof.
  intros H1 Hd Hq H2 Hres.
  rewrite (main_after_prompt w d query (get_metrics_ok w r1 d H1 Hd) Hq).
  rewrite (query_prometheus_ok w query r2 _ H2 Hres). reflexivity.
Qed.

Lemma run_on_no_series_witness :
  main world_no_series = mkOutcome 1 [Prompt "Enter a Prometheus query: "].
Proof.
  exact (run_on_no_series world_no_series _ _ (JArr [JStr "up"]) "nothing"
           eq_refl eq_refl eq_refl eq_refl eq_refl).
Defined.
